(** * unittest-git-secrets.py: a shallow embedding and its verified properties

    The script drives external tools (git, git-secrets), the file system,
    the logger and the random generator.  Every such interaction is an
    [event]; a Python function is a finite tree of events ([py A]) that
    either returns a value or raises an exception.  An arbitrary
    environment ([handler]) answers the events, so every theorem below
    holds for every behaviour of the outside world. *)

From Stdlib Require Import List String Ascii ZArith Lia Bool Strings.Byte DecimalString.
Import ListNotations.

Local Open Scope list_scope.
Local Open Scope string_scope.

(** ** Python values used by the script *)

Definition bytes := list byte.

(** Exceptions deriving from Python's [Exception]. *)
Inductive Exception : Type :=
| CalledProcessError (returncode : Z) (cmd : string) (output : bytes)
| UnicodeDecodeError
| IndexError
| OSError (strerror : string)
| AssertionError (msg : string).

(** [BaseException]: [SystemExit] and [KeyboardInterrupt] are not
    subclasses of [Exception]; an [except Exception] clause lets them
    through, a bare [except:] does not. *)
Inductive BaseException : Type :=
| Exc (e : Exception)
| SystemExit (code : Z)
| KeyboardInterrupt.

Coercion Exc : Exception >-> BaseException.

(** A function without a [return] statement yields [None]; the fixture
    helpers return either that or the failure indicator [False]. *)
Inductive NoneOrFalse : Type := PyNone | PyFalse.

Definition is_not_False (r : NoneOrFalse) : bool :=
  match r with PyFalse => false | PyNone => true end.

Definition is_False (r : NoneOrFalse) : bool :=
  match r with PyFalse => true | PyNone => false end.

(** The options object built by argparse: one boolean flag. *)
Module argparse.
Record Namespace : Type := { debug : bool }.
End argparse.

Module logging_level.
Inductive level : Type := DEBUG | INFO | ERROR.
End logging_level.

Inductive open_mode : Type := mode_w | mode_a.

(** Reading a text file yields its contents, or fails in [open]
    ([OSError]) or in decoding the bytes read ([UnicodeDecodeError]). *)
Inductive read_answer : Type :=
| ReadText (contents : string)
| ReadOSError (strerror : string)
| ReadUndecodable.

(** ** Interactions with the outside world *)

Inductive event : Type -> Type :=
| Log (lvl : logging_level.level) (msg : string) : event unit
| IsDir (path : string) : event bool
| Shell (cmd : string) : event (Z * bytes)
| WriteFile (mode : open_mode) (path data : string) : event (option string)
| ReadFile (path : string) : event read_answer
| RmTree (path : string) : event (option Exception)
| Which (name : string) : event (option string)
| AccessXOK (path : string) : event bool
| RandBelow (n : nat) : event nat
| Mkdtemp : event string
| Getcwd : event string
| Chdir (path : string) : event (option string)
| VersionInfo : event (nat * nat)
| Print (msg : string) : event unit
| ParseArgs : event (argparse.Namespace + BaseException)
| TruncateArgv : event unit
| BasicConfig (lvl : logging_level.level) (format : option string) : event unit
| UnittestMain (class_DEBUG : bool) : event bool.

(** What an observer of the process sees: each event with its answer. *)
Inductive obs : Type :=
| ObsLog (lvl : logging_level.level) (msg : string)
| ObsIsDir (path : string) (answer : bool)
| ObsShell (cmd : string) (returncode : Z) (output : bytes)
| ObsWrite (mode : open_mode) (path data : string) (err : option string)
| ObsRead (path : string) (answer : read_answer)
| ObsRmTree (path : string) (err : option Exception)
| ObsWhich (name : string) (answer : option string)
| ObsAccess (path : string) (answer : bool)
| ObsRandBelow (n : nat) (answer : nat)
| ObsMkdtemp (path : string)
| ObsGetcwd (path : string)
| ObsChdir (path : string) (err : option string)
| ObsVersionInfo (v : nat * nat)
| ObsPrint (msg : string)
| ObsParseArgs (answer : argparse.Namespace + BaseException)
| ObsTruncateArgv
| ObsBasicConfig (lvl : logging_level.level) (format : option string)
| ObsUnittestMain (class_DEBUG : bool) (wasSuccessful : bool).

Definition trace := list obs.

Definition observe {R : Type} (ev : event R) : R -> obs :=
  match ev in event T return T -> obs with
  | Log lvl msg => fun _ => ObsLog lvl msg
  | IsDir p => fun b => ObsIsDir p b
  | Shell cmd => fun r => ObsShell cmd (fst r) (snd r)
  | WriteFile m p d => fun e => ObsWrite m p d e
  | ReadFile p => fun r => ObsRead p r
  | RmTree p => fun e => ObsRmTree p e
  | Which n => fun r => ObsWhich n r
  | AccessXOK p => fun b => ObsAccess p b
  | RandBelow n => fun i => ObsRandBelow n i
  | Mkdtemp => fun p => ObsMkdtemp p
  | Getcwd => fun p => ObsGetcwd p
  | Chdir p => fun e => ObsChdir p e
  | VersionInfo => fun v => ObsVersionInfo v
  | Print msg => fun _ => ObsPrint msg
  | ParseArgs => fun r => ObsParseArgs r
  | TruncateArgv => fun _ => ObsTruncateArgv
  | BasicConfig lvl f => fun _ => ObsBasicConfig lvl f
  | UnittestMain d => fun ok => ObsUnittestMain d ok
  end.

(** ** Python computations *)

Inductive py (A : Type) : Type :=
| Return (a : A)
| Raise (e : BaseException)
| Do (R : Type) (ev : event R) (k : R -> py A).

Arguments Return {A} a.
Arguments Raise {A} e.
Arguments Do {A R} ev k.

Fixpoint bind {A B : Type} (p : py A) (f : A -> py B) : py B :=
  match p with
  | Return a => f a
  | Raise e => Raise e
  | Do ev k => Do ev (fun r => bind (k r) f)
  end.

Definition call {R : Type} (ev : event R) : py R := Do ev Return.

(** [try: body except ...: handler]: the clause is a partial function on
    exceptions; an exception it does not match, and any exception raised
    by the handler itself, propagates. *)
Fixpoint try_except {A : Type} (body : py A)
    (clause : BaseException -> option (py A)) : py A :=
  match body with
  | Return a => Return a
  | Raise e => match clause e with Some handler => handler | None => Raise e end
  | Do ev k => Do ev (fun r => try_except (k r) clause)
  end.

Declare Scope py_scope.
Delimit Scope py_scope with py.
Bind Scope py_scope with py.

Notation "x <- p ;; q" := (bind p (fun x => q))
  (at level 100, p at next level, right associativity) : py_scope.
Notation "p ;; q" := (bind p (fun _ => q))
  (at level 100, right associativity) : py_scope.

Local Open Scope py_scope.

(** The except clauses the script uses. *)
Definition except_CalledProcessError {A : Type}
    (handler : Z -> string -> bytes -> py A) : BaseException -> option (py A) :=
  fun e => match e with
           | Exc (CalledProcessError rc cmd out) => Some (handler rc cmd out)
           | _ => None
           end.

Definition except_OSError {A : Type}
    (handler : string -> py A) : BaseException -> option (py A) :=
  fun e => match e with
           | Exc (OSError msg) => Some (handler msg)
           | _ => None
           end.

Definition except_Exception {A : Type}
    (handler : Exception -> py A) : BaseException -> option (py A) :=
  fun e => match e with
           | Exc e' => Some (handler e')
           | _ => None
           end.

Definition except_bare {A : Type}
    (handler : py A) : BaseException -> option (py A) :=
  fun _ => Some handler.

(** ** Running a computation in an environment *)

Inductive outcome (A : Type) : Type :=
| Returns (a : A)
| Raises (e : BaseException).

Arguments Returns {A} a.
Arguments Raises {A} e.

Definition handler (W : Type) : Type := forall R : Type, event R -> W -> R * W.

Fixpoint run {W A : Type} (h : handler W) (p : py A) (w : W)
    : outcome A * W * trace :=
  match p with
  | Return a => (Returns a, w, [])
  | Raise e => (Raises e, w, [])
  | Do ev k =>
      let '(r, w1) := h _ ev w in
      let '(o, w2, t) := run h (k r) w1 in
      (o, w2, observe ev r :: t)
  end.

Definition outcome_of {W A : Type} (x : outcome A * W * trace) : outcome A :=
  fst (fst x).
Definition state_of {W A : Type} (x : outcome A * W * trace) : W :=
  snd (fst x).
Definition trace_of {W A : Type} (x : outcome A * W * trace) : trace :=
  snd x.

(** ** The parts of the Python runtime the script calls *)

Definition nl : string := String (ascii_of_nat 10) EmptyString.
Definition tab : string := String (ascii_of_nat 9) EmptyString.
Definition esc : string := String (ascii_of_nat 27) EmptyString.
Definition dquote : string := String (ascii_of_nat 34) EmptyString.

(** ['{}'.format(n)] for an integer. *)
Definition format_int (z : Z) : string := NilZero.string_of_int (Z.to_int z).

(** [bytes.decode('utf-8')] with the default strict error handling:
    well-formed UTF-8 (Unicode Standard, table 3-7) decodes, anything else
    raises [UnicodeDecodeError].  Text is kept in its UTF-8 form. *)
Definition between (lo x hi : N) : bool := ((lo <=? x) && (x <=? hi))%N.

Definition continuation (b : N) : bool := between 0x80 b 0xBF.

Definition two_bytes (b0 b1 : N) : bool :=
  between 0xC2 b0 0xDF && continuation b1.

Definition three_bytes (b0 b1 b2 : N) : bool :=
  (((b0 =? 0xE0)%N && between 0xA0 b1 0xBF)
   || (between 0xE1 b0 0xEC && continuation b1)
   || ((b0 =? 0xED)%N && between 0x80 b1 0x9F)
   || (between 0xEE b0 0xEF && continuation b1))
  && continuation b2.

Definition four_bytes (b0 b1 b2 b3 : N) : bool :=
  (((b0 =? 0xF0)%N && between 0x90 b1 0xBF)
   || (between 0xF1 b0 0xF3 && continuation b1)
   || ((b0 =? 0xF4)%N && between 0x80 b1 0x8F))
  && continuation b2 && continuation b3.

Fixpoint utf8_valid (bs : list N) : bool :=
  match bs with
  | [] => true
  | b0 :: r0 =>
      if (b0 <=? 0x7F)%N then utf8_valid r0 else
      match r0 with
      | [] => false
      | b1 :: r1 =>
          if two_bytes b0 b1 then utf8_valid r1 else
          match r1 with
          | [] => false
          | b2 :: r2 =>
              if three_bytes b0 b1 b2 then utf8_valid r2 else
              match r2 with
              | [] => false
              | b3 :: r3 => four_bytes b0 b1 b2 b3 && utf8_valid r3
              end
          end
      end
  end.

Definition is_utf8 (b : bytes) : bool := utf8_valid (map Byte.to_N b).

Definition decode_utf8 (b : bytes) : py string :=
  if is_utf8 b then Return (string_of_list_byte b)
  else Raise UnicodeDecodeError.

(** [str(e)] for the exceptions of the model. *)
Definition Exception_str (e : Exception) : string :=
  match e with
  | CalledProcessError rc cmd _ =>
      "Command '" ++ cmd ++ "' returned non-zero exit status "
        ++ format_int rc ++ "."
  | UnicodeDecodeError => "'utf-8' codec can't decode bytes"
  | IndexError => "Cannot choose from an empty sequence"
  | OSError msg => msg
  | AssertionError msg => msg
  end.

Module logging.
Export logging_level.
Definition debug (msg : string) : py unit := call (Log DEBUG msg).
Definition info (msg : string) : py unit := call (Log INFO msg).
Definition error (msg : string) : py unit := call (Log ERROR msg).
Definition basicConfig (lvl : level) (format : option string) : py unit :=
  call (BasicConfig lvl format).
End logging.

Module subprocess.
(** [check_output(cmd, shell=True, stderr=subprocess.STDOUT)]: the captured
    output when the command exits zero, [CalledProcessError] otherwise. *)
Definition check_output (cmd : string) : py bytes :=
  r <- call (Shell cmd);;
  if (fst r =? 0)%Z then Return (snd r)
  else Raise (CalledProcessError (fst r) cmd (snd r)).
End subprocess.

Module sys.
Definition exit (code : Z) : py unit := Raise (SystemExit code).
Definition version_info : py (nat * nat) := call VersionInfo.
End sys.

(** The interactive [exit] of the [site] module raises [SystemExit]. *)
Definition exit {A : Type} (code : Z) : py A := Raise (SystemExit code).

Definition print (msg : string) : py unit := call (Print msg).

Module os.
Definition getcwd : py string := call Getcwd.
Definition chdir (path : string) : py unit :=
  r <- call (Chdir path);;
  match r with
  | None => Return tt
  | Some msg => Raise (OSError msg)
  end.
Definition access_X_OK (path : string) : py bool := call (AccessXOK path).
Module path.
Definition isdir (p : string) : py bool := call (IsDir p).
End path.
End os.

Module shutil.
Definition which (name : string) : py (option string) := call (Which name).
Definition rmtree (path : string) : py unit :=
  r <- call (RmTree path);;
  match r with
  | None => Return tt
  | Some e => Raise e
  end.
End shutil.

Module tempfile.
Definition mkdtemp : py string := call Mkdtemp.
End tempfile.

(** [with open(path, mode) as f: f.write(data)] and
    [with open(path, 'r') as f: f.read()]. *)
Definition open_write (mode : open_mode) (path data : string) : py unit :=
  r <- call (WriteFile mode path data);;
  match r with
  | None => Return tt
  | Some msg => Raise (OSError msg)
  end.

Definition open_read (path : string) : py string :=
  r <- call (ReadFile path);;
  match r with
  | ReadText contents => Return contents
  | ReadOSError msg => Raise (OSError msg)
  | ReadUndecodable => Raise UnicodeDecodeError
  end.

Module random.
(** [random.choice(seq)] is [seq[randbelow(len(seq))]]; the environment's
    answer is reduced into the range that [randbelow] guarantees. *)
Definition choice (seq : string) : py ascii :=
  let n := String.length seq in
  if (n =? 0)%nat then Raise IndexError
  else
    i <- call (RandBelow n);;
    match String.get (i mod n) seq with
    | Some c => Return c
    | None => Raise IndexError
    end.
End random.

(** [''.join(random.choice(chars) for _ in range(n))]. *)
Fixpoint join_random_choice (chars : string) (n : nat) : py string :=
  match n with
  | O => Return EmptyString
  | S m =>
      c <- random.choice chars;;
      rest <- join_random_choice chars m;;
      Return (String c rest)
  end.

(** [pathlib] on a POSIX system: a path is a root and a list of names;
    empty names and [.] are dropped when a string is parsed. *)
Module pathlib.
Record PurePath : Type := { root : string; parts : list string }.

Fixpoint split (sep : ascii) (s : string) : list string :=
  match s with
  | EmptyString => [EmptyString]
  | String c r =>
      let rest := split sep r in
      if Ascii.eqb c sep then EmptyString :: rest
      else match rest with
           | p :: ps => String c p :: ps
           | [] => [String c EmptyString]
           end
  end.

Definition is_name (x : string) : bool :=
  negb (x =? EmptyString) && negb (x =? ".").

Definition parse_root (s : string) : string :=
  match s with
  | String "/" (String "/" (String "/" _)) => "/"
  | String "/" (String "/" _) => "//"
  | String "/" _ => "/"
  | _ => EmptyString
  end.

Definition Path (s : string) : PurePath :=
  {| root := parse_root s; parts := filter is_name (split "/" s) |}.

Definition joinpath (p : PurePath) (child : string) : PurePath :=
  let c := Path child in
  if root c =? EmptyString
  then {| root := root p; parts := parts p ++ parts c |}
  else c.

Definition str (p : PurePath) : string :=
  match root p, parts p with
  | EmptyString, [] => "."
  | r, ps => r ++ String.concat "/" ps
  end.
End pathlib.

Declare Scope path_scope.
Delimit Scope path_scope with path.
Notation "p / c" := (pathlib.joinpath p c) : path_scope.

(** [from string import ascii_uppercase, ascii_lowercase, digits] *)
Definition ascii_uppercase : string := "ABCDEFGHIJKLMNOPQRSTUVWXYZ".
Definition ascii_lowercase : string := "abcdefghijklmnopqrstuvwxyz".
Definition digits : string := "0123456789".

(** ** The script *)

Module ForegroundColor.
Definition RED : string := esc ++ "[1;31;40m".
Definition GREEN : string := esc ++ "[1;32;40m".
Definition RESET : string := esc ++ "[0m".
End ForegroundColor.

Module TestAwsPatterns.

Record t : Type := { debug : bool }.

Definition __init__ (debug : bool) : t := {| debug := debug |}.

Definition gpgsign_config_string : string :=
  "[commit]" ++ nl ++ tab ++ "gpgsign = false".

Definition disable_gpgsign (self : t) (path : string) : py unit :=
  let p := pathlib.Path path in
  let git_config_path := (p / ".git" / "config")%path in
  open_write mode_a (pathlib.str git_config_path) gpgsign_config_string.

Definition create_repo (self : t) (path : string) : py NoneOrFalse :=
  let p := pathlib.Path path in
  let git_dir_path := (p / ".git")%path in
  exists_already <- os.path.isdir (pathlib.str git_dir_path);;
  (if exists_already
   then logging.error ("Git directory '" ++ pathlib.str git_dir_path
                         ++ "' already exists! Exiting...")
   else Return tt);;
  let cmd := "git init " ++ path in
  logging.debug ("Running command: '" ++ cmd ++ "'");;
  try_except
    (output <- subprocess.check_output cmd;;
     text <- decode_utf8 output;;
     logging.debug text;;
     disable_gpgsign self path;;
     (if debug self
      then
        let git_config_path := (p / ".git" / "config")%path in
        contents <- open_read (pathlib.str git_config_path);;
        logging.debug (".git/config file contents: " ++ nl ++ contents)
      else Return tt);;
     Return PyNone)
    (except_CalledProcessError (fun returncode _ output =>
       logging.error ("Command '" ++ cmd ++ "' return code: "
                        ++ format_int returncode);;
       text <- decode_utf8 output;;
       logging.error ("Command output: " ++ text);;
       Return PyFalse)).

Definition commit_cmd : string := "git commit -m 'test pre-commit hook'".

Definition trigger_hook (self : t) (f : string) : py bool :=
  let marker := false in
  let cmd := "git add " ++ f in
  logging.debug ("Running command: '" ++ cmd ++ "'");;
  try_except
    (subprocess.check_output cmd;; Return tt)
    (except_CalledProcessError (fun _ _ output =>
       text <- decode_utf8 output;;
       logging.error ("Could not run command '" ++ cmd ++ "': " ++ text)));;
  let cmd := commit_cmd in
  logging.debug ("Running command: '" ++ cmd ++ "'");;
  marker <- try_except
    (subprocess.check_output cmd;; Return true)
    (except_CalledProcessError (fun returncode _ output =>
       logging.info ("Command '" ++ cmd ++ "' return code: "
                       ++ format_int returncode);;
       text <- decode_utf8 output;;
       logging.info ("Command output:" ++ nl ++ " " ++ ForegroundColor.GREEN
                       ++ text ++ ForegroundColor.RESET);;
       Return marker));;
  Return marker.

Definition remove_repo (self : t) (path : string) : py NoneOrFalse :=
  try_except
    (shutil.rmtree path;; Return PyNone)
    (except_Exception (fun e =>
       logging.error ("Cannot remove directory '" ++ path ++ "': '"
                        ++ Exception_str e ++ "'");;
       Return PyFalse)).

Definition secret_key_chars : string :=
  ascii_uppercase ++ ascii_lowercase ++ digits ++ "/" ++ "+" ++ "=".

Definition generate_random_aws_secret_key (self : t) : py string :=
  let chars := secret_key_chars in
  key <- join_random_choice chars 40;;
  Return key.

Definition access_key_chars : string := ascii_uppercase ++ digits.

Definition generate_random_aws_access_key (self : t) : py string :=
  let chars := access_key_chars in
  tail <- join_random_choice chars 16;;
  let key := "AKIA" ++ tail in
  Return key.

Definition which_git_secrets (self : t) : py unit :=
  let git_secrets := "git-secrets" in
  found <- shutil.which git_secrets;;
  match found with
  | None =>
      logging.error (git_secrets ++ " is not found in the path!");;
      exit 1
  | Some found =>
      executable <- os.access_X_OK found;;
      if negb executable
      then logging.error (found ++ " is not executable!");; exit 1
      else Return tt
  end.

Definition scan_git_secrets (self : t) (path : string) : py NoneOrFalse :=
  let cmd := "git-secrets --scan " ++ path in
  logging.debug ("Running command: '" ++ cmd ++ "'");;
  try_except
    (output <- subprocess.check_output cmd;;
     text <- decode_utf8 output;;
     logging.debug text;;
     Return PyNone)
    (except_CalledProcessError (fun returncode _ output =>
       logging.info ("Command '" ++ cmd ++ "' return code: "
                       ++ format_int returncode);;
       text <- decode_utf8 output;;
       logging.info ("Command output: " ++ ForegroundColor.GREEN
                       ++ text ++ ForegroundColor.RESET);;
       Return PyFalse)).

End TestAwsPatterns.

Module Test_01_GitPreCommitHook.

Record t : Type := { repo_path : string; outfile : string; debug : bool }.

(** The constructor reads the class attribute [DEBUG]; the base-class
    constructor it calls first touches nothing outside the object. *)
Definition __init__ (DEBUG : bool) : py t :=
  repo_path <- tempfile.mkdtemp;;
  Return {| repo_path := repo_path;
            outfile := "test.txt";
            debug := if DEBUG then true else false |}.

(** [setUp] stores a helper object in [self.g1]; it is
    [TestAwsPatterns(self.debug)] in every later method of the test. *)
Definition g1 (self : t) : TestAwsPatterns.t :=
  TestAwsPatterns.__init__ (debug self).

Definition prohibited_pattern (secret : string) : string :=
  "aws_secret_access_key = " ++ secret.

Definition setUp (self : t) : py unit :=
  TestAwsPatterns.which_git_secrets (g1 self);;
  created <- TestAwsPatterns.create_repo (g1 self) (repo_path self);;
  if is_not_False created
  then
    let p := pathlib.Path (repo_path self) in
    let outfile_path := (p / outfile self)%path in
    secret <- TestAwsPatterns.generate_random_aws_secret_key (g1 self);;
    open_write mode_w (pathlib.str outfile_path) (prohibited_pattern secret)
  else Return tt.

Definition assertFalse (expr : bool) : py unit :=
  if expr then Raise (AssertionError "True is not false") else Return tt.

Definition test_git_pre_commit_hook (self : t) : py unit :=
  saved_path <- os.getcwd;;
  try_except
    (os.chdir (repo_path self);;
     logging.debug ("Changed directory to " ++ dquote ++ repo_path self
                      ++ dquote))
    (except_OSError (fun ose =>
       let message := "Error: could not change directory to "
                        ++ repo_path self ++ ": " ++ ose in
       logging.error message));;
  blocked <- TestAwsPatterns.trigger_hook (g1 self) (outfile self);;
  assertFalse blocked;;
  try_except
    (os.chdir saved_path;;
     logging.debug ("Changed directory to " ++ dquote ++ saved_path
                      ++ dquote))
    (except_OSError (fun ose =>
       let message := "Error: could not change directory to "
                        ++ saved_path ++ ": " ++ ose in
       logging.error message)).

Definition tearDown (self : t) : py unit :=
  removed <- TestAwsPatterns.remove_repo (g1 self) (repo_path self);;
  if is_False removed
  then logging.error
         ("Error: Cannot remove the directory, you will need to do this manually: '"
            ++ repo_path self ++ "'")
  else Return tt.

End Test_01_GitPreCommitHook.

(** [parser.parse_args()] returns the options or raises what argparse
    raises ([SystemExit] after a usage error or after printing the help). *)
Definition ArgumentParser_parse_args : py argparse.Namespace :=
  r <- call ParseArgs;;
  match r with
  | inl options => Return options
  | inr e => Raise e
  end.

Definition parse_args : py argparse.Namespace :=
  try_except
    (options <- ArgumentParser_parse_args;;
     Return options)
    (except_bare (exit 0)).

(** [sys.version_info >= (3, 4)] *)
Definition version_ge (v w : nat * nat) : bool :=
  ((fst w <? fst v) || ((fst v =? fst w) && (snd w <=? snd v)))%nat.

(** [unittest.main()] runs the tests, then calls
    [sys.exit(not result.wasSuccessful())]. *)
Definition unittest_main (class_DEBUG : bool) : py unit :=
  ok <- call (UnittestMain class_DEBUG);;
  sys.exit (if ok then 0 else 1).

Definition main : py unit :=
  v <- sys.version_info;;
  (if negb (version_ge v (3, 4)%nat)
   then print "ERROR: Required minimum Python version is 3.4! Exiting...";;
        exit 1
   else Return tt);;
  args <- parse_args;;
  class_DEBUG <-
    (if argparse.debug args
     then call TruncateArgv;;
          logging.basicConfig logging_level.DEBUG None;;
          Return true
     else logging.basicConfig logging_level.INFO (Some "%(message)s");;
          Return false);;
  unittest_main class_DEBUG.

(** [if __name__ == '__main__': sys.exit(main())]; [main] returns [None],
    which [sys.exit] turns into status 0. *)
Definition script : py unit :=
  main;;
  sys.exit 0.

(** ** Vocabulary of the specification *)

Definition is_upper (c : ascii) : bool :=
  ((65 <=? nat_of_ascii c) && (nat_of_ascii c <=? 90))%nat.

Definition is_lower (c : ascii) : bool :=
  ((97 <=? nat_of_ascii c) && (nat_of_ascii c <=? 122))%nat.

Definition is_digit (c : ascii) : bool :=
  ((48 <=? nat_of_ascii c) && (nat_of_ascii c <=? 57))%nat.

(** Uppercase letters, lowercase letters, digits and the three symbols. *)
Definition secret_key_char (c : ascii) : bool :=
  is_upper c || is_lower c || is_digit c
  || Ascii.eqb c "/" || Ascii.eqb c "+" || Ascii.eqb c "=".

(** Uppercase letters and digits. *)
Definition access_key_char (c : ascii) : bool :=
  is_upper c || is_digit c.

Definition all_chars (P : ascii -> bool) (s : string) : bool :=
  forallb P (list_ascii_of_string s).



(** Selections from a trace. *)
Definition is_write (o : obs) : bool :=
  match o with ObsWrite _ _ _ _ => true | _ => false end.

Definition is_shell (o : obs) : bool :=
  match o with ObsShell _ _ _ => true | _ => false end.

Definition is_mkdtemp (o : obs) : bool :=
  match o with ObsMkdtemp _ => true | _ => false end.

Definition is_rmtree (o : obs) : bool :=
  match o with ObsRmTree _ _ => true | _ => false end.

Definition is_randbelow (o : obs) : bool :=
  match o with ObsRandBelow _ _ => true | _ => false end.

Definition writes (t : trace) : trace := filter is_write t.

Definition logged (lvl : logging_level.level) (msg : string) (t : trace) : Prop :=
  In (ObsLog lvl msg) t.

(** ** A reference environment

    A scripted world with canned answers; it is used to evaluate the
    script on concrete inputs. *)

Record world : Type := {
  git_secrets_path : option string;
  git_secrets_executable : bool;
  directories : list string;
  shell_outcome : string -> Z * bytes;
  write_error : option string;
  config_contents : read_answer;
  rmtree_error : option Exception;
  chdir_error : option string;
  dice : list nat;
  tmp_name : string;
  cwd : string;
  python_version : nat * nat;
  command_line : argparse.Namespace + BaseException;
  tests_succeed : bool
}.

Definition roll (w : world) : world :=
  {| git_secrets_path := git_secrets_path w;
     git_secrets_executable := git_secrets_executable w;
     directories := directories w;
     shell_outcome := shell_outcome w;
     write_error := write_error w;
     config_contents := config_contents w;
     rmtree_error := rmtree_error w;
     chdir_error := chdir_error w;
     dice := tl (dice w);
     tmp_name := tmp_name w;
     cwd := cwd w;
     python_version := python_version w;
     command_line := command_line w;
     tests_succeed := tests_succeed w |}.

Definition simulate : handler world :=
  fun R ev w =>
    match ev in event T return T * world with
    | Log _ _ => (tt, w)
    | IsDir p => (existsb (String.eqb p) (directories w), w)
    | Shell cmd => (shell_outcome w cmd, w)
    | WriteFile _ _ _ => (write_error w, w)
    | ReadFile _ => (config_contents w, w)
    | RmTree _ => (rmtree_error w, w)
    | Which _ => (git_secrets_path w, w)
    | AccessXOK _ => (git_secrets_executable w, w)
    | RandBelow _ => (hd 0%nat (dice w), roll w)
    | Mkdtemp => (tmp_name w, w)
    | Getcwd => (cwd w, w)
    | Chdir _ => (chdir_error w, w)
    | VersionInfo => (python_version w, w)
    | Print _ => (tt, w)
    | ParseArgs => (command_line w, w)
    | TruncateArgv => (tt, w)
    | BasicConfig _ _ => (tt, w)
    | UnittestMain _ => (tests_succeed w, w)
    end.

Definition ascii_bytes (s : string) : bytes := list_byte_of_string s.

(** git-secrets installed, hook configured: the commit is rejected. *)
Definition hook_shell (cmd : string) : Z * bytes :=
  if cmd =? TestAwsPatterns.commit_cmd
  then (1%Z, ascii_bytes "[ERROR] Matched one or more prohibited patterns")
  else (0%Z, ascii_bytes "ok").

(** No hook configured: every command exits zero. *)
Definition plain_shell (cmd : string) : Z * bytes :=
  (0%Z, ascii_bytes "ok").

(** A Latin-1 locale: a failing git prints a message that is not UTF-8
    ([0xE9] is e-acute in ISO 8859-1). *)
Definition latin1_message : bytes := [x66; x61; x74; x61; x6c; xe9].

Definition latin1_shell (cmd : string) : Z * bytes :=
  (128%Z, latin1_message).

Definition hooked_world : world :=
  {| git_secrets_path := Some "/usr/local/bin/git-secrets";
     git_secrets_executable := true;
     directories := [];
     shell_outcome := hook_shell;
     write_error := None;
     config_contents := ReadText "[core]";
     rmtree_error := None;
     chdir_error := None;
     dice := [7; 70; 3; 64; 63; 129; 12]%nat;
     tmp_name := "/tmp/tmpk3v9x_2a";
     cwd := "/home/dev";
     python_version := (3, 8)%nat;
     command_line := inl {| argparse.debug := false |};
     tests_succeed := true |}.

Definition with_shell (sh : string -> Z * bytes) (w : world) : world :=
  {| git_secrets_path := git_secrets_path w;
     git_secrets_executable := git_secrets_executable w;
     directories := directories w;
     shell_outcome := sh;
     write_error := write_error w;
     config_contents := config_contents w;
     rmtree_error := rmtree_error w;
     chdir_error := chdir_error w;
     dice := dice w;
     tmp_name := tmp_name w;
     cwd := cwd w;
     python_version := python_version w;
     command_line := command_line w;
     tests_succeed := tests_succeed w |}.

Definition with_scanner (found : option string) (x : bool) (w : world) : world :=
  {| git_secrets_path := found;
     git_secrets_executable := x;
     directories := directories w;
     shell_outcome := shell_outcome w;
     write_error := write_error w;
     config_contents := config_contents w;
     rmtree_error := rmtree_error w;
     chdir_error := chdir_error w;
     dice := dice w;
     tmp_name := tmp_name w;
     cwd := cwd w;
     python_version := python_version w;
     command_line := command_line w;
     tests_succeed := tests_succeed w |}.

Definition with_command_line (r : argparse.Namespace + BaseException)
    (w : world) : world :=
  {| git_secrets_path := git_secrets_path w;
     git_secrets_executable := git_secrets_executable w;
     directories := directories w;
     shell_outcome := shell_outcome w;
     write_error := write_error w;
     config_contents := config_contents w;
     rmtree_error := rmtree_error w;
     chdir_error := chdir_error w;
     dice := dice w;
     tmp_name := tmp_name w;
     cwd := cwd w;
     python_version := python_version w;
     command_line := r;
     tests_succeed := tests_succeed w |}.

Definition with_rmtree_error (e : option Exception) (w : world) : world :=
  {| git_secrets_path := git_secrets_path w;
     git_secrets_executable := git_secrets_executable w;
     directories := directories w;
     shell_outcome := shell_outcome w;
     write_error := write_error w;
     config_contents := config_contents w;
     rmtree_error := e;
     chdir_error := chdir_error w;
     dice := dice w;
     tmp_name := tmp_name w;
     cwd := cwd w;
     python_version := python_version w;
     command_line := command_line w;
     tests_succeed := tests_succeed w |}.

(** A successful [git init] under a French ISO 8859-1 locale. *)
Definition latin1_init_message : bytes :=
  [x44; xe9; x70; xf4; x74; x20; x47; x69; x74; x20; x76; x69; x64; x65].

Definition latin1_init_shell (cmd : string) : Z * bytes :=
  (0%Z, latin1_init_message).

Definition unhooked_world : world := with_shell plain_shell hooked_world.
Definition latin1_init_world : world := with_shell latin1_init_shell hooked_world.
Definition latin1_world : world := with_shell latin1_shell hooked_world.
Definition no_scanner_world : world := with_scanner None false hooked_world.

Definition fixture : Test_01_GitPreCommitHook.t :=
  {| Test_01_GitPreCommitHook.repo_path := "/tmp/tmpk3v9x_2a";
     Test_01_GitPreCommitHook.outfile := "test.txt";
     Test_01_GitPreCommitHook.debug := false |}.

(** ** Further selections from a trace and further environments *)

(** The command lines run, in order. *)
Fixpoint shell_cmds (t : trace) : list string :=
  match t with
  | [] => []
  | ObsShell cmd _ _ :: rest => cmd :: shell_cmds rest
  | _ :: rest => shell_cmds rest
  end.


Definition is_read (o : obs) : bool :=
  match o with ObsRead _ _ => true | _ => false end.

Definition is_log (o : obs) : bool :=
  match o with ObsLog _ _ => true | _ => false end.

(** The position of the first occurrence of a character. *)
Fixpoint index_of (c : ascii) (chars : string) : nat :=
  match chars with
  | EmptyString => 0
  | String a rest => if Ascii.eqb a c then 0 else S (index_of c rest)
  end.

Definition with_dice (ds : list nat) (w : world) : world :=
  {| git_secrets_path := git_secrets_path w;
     git_secrets_executable := git_secrets_executable w;
     directories := directories w;
     shell_outcome := shell_outcome w;
     write_error := write_error w;
     config_contents := config_contents w;
     rmtree_error := rmtree_error w;
     chdir_error := chdir_error w;
     dice := ds;
     tmp_name := tmp_name w;
     cwd := cwd w;
     python_version := python_version w;
     command_line := command_line w;
     tests_succeed := tests_succeed w |}.

Definition with_write_error (e : option string) (w : world) : world :=
  {| git_secrets_path := git_secrets_path w;
     git_secrets_executable := git_secrets_executable w;
     directories := directories w;
     shell_outcome := shell_outcome w;
     write_error := e;
     config_contents := config_contents w;
     rmtree_error := rmtree_error w;
     chdir_error := chdir_error w;
     dice := dice w;
     tmp_name := tmp_name w;
     cwd := cwd w;
     python_version := python_version w;
     command_line := command_line w;
     tests_succeed := tests_succeed w |}.

Definition with_python_version (v : nat * nat) (w : world) : world :=
  {| git_secrets_path := git_secrets_path w;
     git_secrets_executable := git_secrets_executable w;
     directories := directories w;
     shell_outcome := shell_outcome w;
     write_error := write_error w;
     config_contents := config_contents w;
     rmtree_error := rmtree_error w;
     chdir_error := chdir_error w;
     dice := dice w;
     tmp_name := tmp_name w;
     cwd := cwd w;
     python_version := v;
     command_line := command_line w;
     tests_succeed := tests_succeed w |}.

(** The commit is rejected, and what it prints is not UTF-8. *)
Definition undecodable_commit_shell (cmd : string) : Z * bytes :=
  if cmd =? TestAwsPatterns.commit_cmd
  then (1%Z, latin1_message)
  else (0%Z, ascii_bytes "ok").

Definition undecodable_commit_world : world :=
  with_shell undecodable_commit_shell hooked_world.

(** Every command fails, printing plain ASCII. *)
Definition failing_shell (cmd : string) : Z * bytes :=
  (128%Z, ascii_bytes "fatal: not a git repository").

Definition failing_world : world := with_shell failing_shell hooked_world.

(** The message [tearDown] logs when the fixture could not be removed. *)
Definition manual_cleanup_message (repo_path : string) : string :=
  "Error: Cannot remove the directory, you will need to do this manually: '"
    ++ repo_path ++ "'".

(** ** Statements of the specification that the script does not meet *)

(** "If the scanning-tool executable cannot be located on the search path,
    the process exits with a non-zero status before any fixture is
    created": a test case is constructed, [setUp] runs, and no temporary
    directory has been created by the time of the exit. *)
Definition exits_before_any_fixture {W : Type} (h : handler W) (w : W)
    (DEBUG : bool) : Prop :=
  forall self w1 t1,
    run h (Test_01_GitPreCommitHook.__init__ DEBUG) w = (Returns self, w1, t1) ->
    fst (h _ (Which "git-secrets") w1) = None ->
    exists code,
      code <> 0%Z
      /\ outcome_of (run h (Test_01_GitPreCommitHook.setUp self) w1)
           = Raises (SystemExit code)
      /\ filter is_mkdtemp
           (t1 ++ trace_of (run h (Test_01_GitPreCommitHook.setUp self) w1))
         = [].

(** * Properties *)

(** ** Running sequences and handlers *)

Section RunLaws.
Context {W : Type} (h : handler W).

Lemma run_bind {A B : Type} (p : py A) (f : A -> py B) (w : W) :
  run h (bind p f) w =
  match run h p w with
  | (Returns a, w1, t1) =>
      let '(o, w2, t2) := run h (f a) w1 in (o, w2, (t1 ++ t2)%list)
  | (Raises e, w1, t1) => (Raises e, w1, t1)
  end.
Proof.
  revert w; induction p as [a | e | R ev k IH]; intro w; simpl.
  - destruct (run h (f a) w) as [[o w2] t2]; reflexivity.
  - reflexivity.
  - destruct (h R ev w) as [r w1].
    rewrite IH.
    destruct (run h (k r) w1) as [[[a | e] w2] t1]; [ | reflexivity ].
    destruct (run h (f a) w2) as [[o w3] t2]; reflexivity.
Qed.

Lemma run_try_except {A : Type} (p : py A)
    (clause : BaseException -> option (py A)) (w : W) :
  run h (try_except p clause) w =
  match run h p w with
  | (Returns a, w1, t1) => (Returns a, w1, t1)
  | (Raises e, w1, t1) =>
      match clause e with
      | Some handler =>
          let '(o, w2, t2) := run h handler w1 in (o, w2, (t1 ++ t2)%list)
      | None => (Raises e, w1, t1)
      end
  end.
Proof.
  revert w; induction p as [a | e | R ev k IH]; intro w; simpl.
  - reflexivity.
  - destruct (clause e) as [handler | ]; [ | reflexivity ].
    destruct (run h handler w) as [[o w2] t2]; reflexivity.
  - destruct (h R ev w) as [r w1].
    rewrite IH.
    destruct (run h (k r) w1) as [[[a | e] w2] t1]; [ reflexivity | ].
    destruct (clause e) as [handler | ]; [ | reflexivity ].
    destruct (run h handler w2) as [[o w3] t2]; reflexivity.
Qed.

End RunLaws.

Arguments pathlib.str : simpl never.
Arguments pathlib.joinpath : simpl never.
Arguments pathlib.Path : simpl never.
Arguments format_int : simpl never.
Arguments string_of_list_byte : simpl never.

(** Answer the next event of the goal's run by an arbitrary value. *)
Ltac answer h :=
  match goal with
  | |- context [h ?R ?ev ?w] =>
      let r := fresh "r" in
      let w' := fresh "w" in
      let E := fresh "E" in
      destruct (h R ev w) as [r w'] eqn:E;
      match type of r with
      | unit => destruct r
      | _ => idtac
      end
  end.

(** ** The random credential generator *)

Lemma get_in_range (s : string) (i : nat) :
  i < String.length s ->
  exists c, String.get i s = Some c /\ In c (list_ascii_of_string s).
Proof.
  revert i; induction s as [ | a s IH]; intros i Hi; simpl in *.
  - lia.
  - destruct i as [ | i].
    + exists a; split; [ reflexivity | now left ].
    + destruct (IH i) as [c [Hc Hin]]; [ lia | ].
      exists c; split; [ exact Hc | now right ].
Qed.

Lemma choice_spec {W : Type} (h : handler W) (chars : string) (w : W) :
  String.length chars <> 0 ->
  exists c w' i,
    run h (random.choice chars) w
      = (Returns c, w', [ObsRandBelow (String.length chars) i])
    /\ In c (list_ascii_of_string chars).
Proof.
  intro Hne. unfold random.choice.
  destruct (Nat.eqb_spec (String.length chars) 0) as [H0 | _]; [ contradiction | ].
  cbn [bind call run].
  answer h.
  destruct (get_in_range chars (r mod String.length chars)) as [c [Hc Hin]].
  { apply Nat.mod_upper_bound; exact Hne. }
  rewrite Hc. cbn.
  exists c, w0, r; split; [ reflexivity | exact Hin ].
Qed.

Lemma join_random_choice_spec {W : Type} (h : handler W) (chars : string) :
  String.length chars <> 0 ->
  forall (n : nat) (w : W),
  exists s w' t,
    run h (join_random_choice chars n) w = (Returns s, w', t)
    /\ String.length s = n
    /\ (forall c, In c (list_ascii_of_string s) ->
                  In c (list_ascii_of_string chars))
    /\ forallb is_randbelow t = true.
Proof.
  intros Hne n; induction n as [ | n IH]; intro w.
  - exists EmptyString, w, []; cbn; repeat split; intros c [].
  - cbn [join_random_choice].
    destruct (choice_spec h chars w Hne) as [c [w1 [i [Hrun Hin]]]].
    destruct (IH w1) as [s [w2 [t [Hrest [Hlen [Hall Ht]]]]]].
    rewrite run_bind, Hrun, run_bind, Hrest.
    exists (String c s), w2, (ObsRandBelow (String.length chars) i :: t).
    cbn [run app]; rewrite app_nil_r.
    split; [ reflexivity | ].
    cbn; repeat split.
    + now rewrite Hlen.
    + intros c' [<- | Hc']; [ exact Hin | now apply Hall ].
    + exact Ht.
Qed.

Lemma chars_all (P : ascii -> bool) (chars : string) :
  all_chars P chars = true ->
  forall c, In c (list_ascii_of_string chars) -> P c = true.
Proof.
  unfold all_chars; intros H c Hc.
  rewrite forallb_forall in H; now apply H.
Qed.

Lemma secret_key_spec {W : Type} (h : handler W) (w : W)
    (self : TestAwsPatterns.t) :
  exists key w' t,
    run h (TestAwsPatterns.generate_random_aws_secret_key self) w
      = (Returns key, w', t)
    /\ String.length key = 40
    /\ (forall c, In c (list_ascii_of_string key) -> secret_key_char c = true)
    /\ forallb is_randbelow t = true.
Proof.
  unfold TestAwsPatterns.generate_random_aws_secret_key.
  destruct (join_random_choice_spec h TestAwsPatterns.secret_key_chars
              ltac:(discriminate) 40 w) as [s [w' [t [Hrun [Hlen [Hall Ht]]]]]].
  exists s, w', t.
  rewrite run_bind, Hrun; cbn [run]; rewrite app_nil_r.
  repeat split; [ exact Hlen | | exact Ht ].
  intros c Hc.
  apply (chars_all secret_key_char TestAwsPatterns.secret_key_chars);
    [ reflexivity | now apply Hall ].
Qed.

(** C2. Every string returned by [generate_random_aws_secret_key] has
    length exactly 40, and each of its characters is an uppercase letter,
    a lowercase letter, a digit, or one of [/], [+], [=]; the function
    always returns (it has no failure mode). *)
Theorem generate_random_aws_secret_key_shape :
  forall (W : Type) (h : handler W) (w : W) (self : TestAwsPatterns.t),
  exists key w' t,
    run h (TestAwsPatterns.generate_random_aws_secret_key self) w
      = (Returns key, w', t)
    /\ String.length key = 40
    /\ forall c, In c (list_ascii_of_string key) -> secret_key_char c = true.
Proof.
  intros W h w self.
  destruct (secret_key_spec h w self) as [key [w' [t [Hrun [Hlen [Hall _]]]]]].
  exists key, w', t; auto.
Qed.

(** C9. Every string returned by [generate_random_aws_access_key] has
    length exactly 20, starts with the fixed four-character prefix
    [AKIA], and its remaining 16 characters are uppercase letters or
    digits. *)
Theorem generate_random_aws_access_key_shape :
  forall (W : Type) (h : handler W) (w : W) (self : TestAwsPatterns.t),
  exists key tail w' t,
    run h (TestAwsPatterns.generate_random_aws_access_key self) w
      = (Returns key, w', t)
    /\ String.length key = 20
    /\ key = "AKIA" ++ tail
    /\ String.length tail = 16
    /\ forall c, In c (list_ascii_of_string tail) -> access_key_char c = true.
Proof.
  intros W h w self.
  unfold TestAwsPatterns.generate_random_aws_access_key.
  destruct (join_random_choice_spec h TestAwsPatterns.access_key_chars
              ltac:(discriminate) 16 w) as [s [w' [t [Hrun [Hlen [Hall _]]]]]].
  exists ("AKIA" ++ s), s, w', t.
  rewrite run_bind, Hrun; cbn [run]; rewrite app_nil_r.
  repeat split; [ cbn; now rewrite Hlen | exact Hlen | ].
  intros c Hc.
  apply (chars_all access_key_char TestAwsPatterns.access_key_chars);
    [ reflexivity | now apply Hall ].
Qed.

(** ** The external scanner probe *)

(** Refute membership of an observation in a concrete trace. *)
Ltac absent H :=
  cbn in H;
  repeat (destruct H as [H | H]; [ try discriminate H | ]);
  try contradiction.

(** C4. [which_git_secrets] raises [SystemExit] with the non-zero status 1
    when [git-secrets] is not found on the search path, and also when it is
    found but not executable; when it is found and executable the function
    returns normally. *)
Theorem which_git_secrets_precondition :
  forall (W : Type) (h : handler W) (w w1 : W) (found : option string)
         (self : TestAwsPatterns.t),
    h _ (Which "git-secrets") w = (found, w1) ->
    (found = None ->
       exists code, code <> 0%Z /\
         outcome_of (run h (TestAwsPatterns.which_git_secrets self) w)
           = Raises (SystemExit code))
    /\ (forall path, found = Some path ->
          fst (h _ (AccessXOK path) w1) = false ->
          exists code, code <> 0%Z /\
            outcome_of (run h (TestAwsPatterns.which_git_secrets self) w)
              = Raises (SystemExit code))
    /\ (forall path, found = Some path ->
          fst (h _ (AccessXOK path) w1) = true ->
          outcome_of (run h (TestAwsPatterns.which_git_secrets self) w)
            = Returns tt).
Proof.
  intros W h w w1 found self Hwhich.
  unfold TestAwsPatterns.which_git_secrets; cbn [bind call shutil.which run].
  rewrite Hwhich.
  repeat split.
  - intros ->; cbn. answer h. cbn.
    exists 1%Z; split; [ discriminate | reflexivity ].
  - intros path -> Hx; cbn. answer h. cbn in Hx; subst r; cbn.
    answer h. cbn.
    exists 1%Z; split; [ discriminate | reflexivity ].
  - intros path -> Hx; cbn. answer h. cbn in Hx; subst r; cbn.
    reflexivity.
Qed.

Lemma which_git_secrets_precondition_witness :
  exists code, code <> 0%Z /\
    outcome_of (run simulate
                  (TestAwsPatterns.which_git_secrets (TestAwsPatterns.__init__ false))
                  no_scanner_world)
      = Raises (SystemExit code).
Proof.
  exact (proj1 (which_git_secrets_precondition world simulate
                  no_scanner_world no_scanner_world None
                  (TestAwsPatterns.__init__ false) eq_refl) eq_refl).
Defined.

(** C7. [remove_repo] never raises: whatever exception the recursive
    deletion raises is caught, logged at error level and turned into the
    failure indicator [False]; without an exception the result is [None]. *)
Theorem remove_repo_never_raises :
  forall (W : Type) (h : handler W) (w : W) (self : TestAwsPatterns.t)
         (path : string),
  exists r w' t,
    run h (TestAwsPatterns.remove_repo self path) w = (Returns r, w', t)
    /\ (forall e : Exception,
          fst (h _ (RmTree path) w) = Some e ->
          r = PyFalse
          /\ logged logging_level.ERROR
               ("Cannot remove directory '" ++ path ++ "': '"
                  ++ Exception_str e ++ "'") t)
    /\ (fst (h _ (RmTree path) w) = None -> r = PyNone).
Proof.
  intros W h w self path.
  unfold TestAwsPatterns.remove_repo, shutil.rmtree.
  cbn [bind call try_except run].
  destruct (h _ (RmTree path) w) as [[e | ] w1] eqn:E; cbn.
  - answer h. cbn.
    eexists _, _, _; split; [ reflexivity | ].
    split.
    + intros e' He'; injection He' as <-. split; [ reflexivity | ].
      right; left; reflexivity.
    + discriminate.
  - eexists _, _, _; split; [ reflexivity | ].
    split; [ discriminate | reflexivity ].
Qed.

Lemma remove_repo_never_raises_witness :
  exists r w' t,
    run simulate
        (TestAwsPatterns.remove_repo (TestAwsPatterns.__init__ false) "/tmp/tmpk3v9x_2a")
        (with_rmtree_error (Some (OSError "Permission denied")) hooked_world)
      = (Returns r, w', t)
    /\ r = PyFalse.
Proof.
  destruct (remove_repo_never_raises world simulate
              (with_rmtree_error (Some (OSError "Permission denied")) hooked_world)
              (TestAwsPatterns.__init__ false) "/tmp/tmpk3v9x_2a")
    as [r [w' [t [Hrun [Hfail _]]]]].
  exists r, w', t; split; [ exact Hrun | ].
  exact (proj1 (Hfail (OSError "Permission denied") eq_refl)).
Defined.

(** ** The command line *)

(** C10. Whenever the argument parser raises (a usage error raises
    [SystemExit(2)]), the bare [except] of [parse_args] catches it and
    calls [sys.exit(0)]: [parse_args] raises [SystemExit(0)], and so does
    every run of the script in which the arguments were parsed and
    rejected. *)
Theorem parse_failure_exits_zero :
  forall (W : Type) (h : handler W) (w : W) (e : BaseException),
    (fst (h _ ParseArgs w) = inr e ->
       outcome_of (run h parse_args w) = Raises (SystemExit 0))
    /\ (In (ObsParseArgs (inr e)) (trace_of (run h script w)) ->
          outcome_of (run h script w) = Raises (SystemExit 0)).
Proof.
  intros W h w e; split.
  - intro Hparse.
    unfold parse_args, ArgumentParser_parse_args.
    cbn [bind call try_except run].
    destruct (h _ ParseArgs w) as [r w1]; cbn in Hparse; subst r.
    reflexivity.
  - unfold script, main, sys.version_info, parse_args, ArgumentParser_parse_args.
    cbn [bind call try_except run].
    answer h.
    destruct (version_ge r (3, 4)%nat); cbn.
    + answer h. destruct r0 as [options | e']; cbn; [ | reflexivity ].
      destruct (argparse.debug options); cbn; repeat (answer h; cbn);
        match goal with b : bool |- _ => destruct b end;
        cbn; intro Hin; absent Hin.
    + answer h. cbn. intro Hin; absent Hin.
Qed.

Lemma parse_failure_exits_zero_witness :
  outcome_of (run simulate script
                (with_command_line (inr (SystemExit 2)) hooked_world))
    = Raises (SystemExit 0).
Proof.
  apply (proj2 (parse_failure_exits_zero world simulate
                  (with_command_line (inr (SystemExit 2)) hooked_world)
                  (SystemExit 2))).
  cbn. right; left; reflexivity.
Defined.

(** ** The fixture and the scanner precondition *)

Lemma init_trace {W : Type} (h : handler W) (w w1 : W) (DEBUG : bool)
    (self : Test_01_GitPreCommitHook.t) (t1 : trace) :
  run h (Test_01_GitPreCommitHook.__init__ DEBUG) w = (Returns self, w1, t1) ->
  t1 = [ObsMkdtemp (Test_01_GitPreCommitHook.repo_path self)]
  /\ Test_01_GitPreCommitHook.outfile self = "test.txt"
  /\ Test_01_GitPreCommitHook.debug self = DEBUG.
Proof.
  unfold Test_01_GitPreCommitHook.__init__, tempfile.mkdtemp.
  cbn [bind call run].
  answer h. cbn. intro H; injection H as <- <- <-.
  cbn; destruct DEBUG; auto.
Qed.

(** C5, as the specification states it, fails: the constructor of the test
    case has already created the temporary fixture directory when [setUp]
    finds the scanner missing and exits. *)
Lemma fixture_directory_precedes_exit :
  ~ exits_before_any_fixture simulate no_scanner_world false.
Proof.
  intro H.
  destruct (H fixture no_scanner_world [ObsMkdtemp "/tmp/tmpk3v9x_2a"]
              eq_refl eq_refl) as [code [_ [_ Hnone]]].
  cbn in Hnone; discriminate Hnone.
Qed.

(** C5, amended. When the scanner cannot be located, [setUp] raises
    [SystemExit(1)] before the repository is initialised and before the
    payload is written: it runs no external command and writes no file.
    The temporary directory itself was created earlier, by the
    constructor of the test case. *)
Theorem missing_scanner_exits_before_repository :
  forall (W : Type) (h : handler W) (w w1 : W) (DEBUG : bool)
         (self : Test_01_GitPreCommitHook.t) (t1 : trace),
    run h (Test_01_GitPreCommitHook.__init__ DEBUG) w = (Returns self, w1, t1) ->
    fst (h _ (Which "git-secrets") w1) = None ->
    t1 = [ObsMkdtemp (Test_01_GitPreCommitHook.repo_path self)]
    /\ exists w2 t2,
         run h (Test_01_GitPreCommitHook.setUp self) w1
           = (Raises (SystemExit 1), w2, t2)
         /\ filter is_shell t2 = []
         /\ writes t2 = []
         /\ filter is_mkdtemp t2 = [].
Proof.
  intros W h w w1 DEBUG self t1 Hinit Hwhich.
  split; [ exact (proj1 (init_trace h w w1 DEBUG self t1 Hinit)) | ].
  unfold Test_01_GitPreCommitHook.setUp, TestAwsPatterns.which_git_secrets,
    shutil.which.
  cbn [bind call run].
  destruct (h _ (Which "git-secrets") w1) as [found w2].
  cbn in Hwhich; subst found. cbn.
  answer h. cbn.
  eexists _, _; repeat split.
Qed.

Lemma missing_scanner_exits_before_repository_witness :
  exists w2 t2,
    run simulate (Test_01_GitPreCommitHook.setUp fixture) no_scanner_world
      = (Raises (SystemExit 1), w2, t2)
    /\ filter is_shell t2 = []
    /\ writes t2 = []
    /\ filter is_mkdtemp t2 = [].
Proof.
  exact (proj2 (missing_scanner_exits_before_repository world simulate
                  no_scanner_world no_scanner_world false fixture
                  [ObsMkdtemp "/tmp/tmpk3v9x_2a"] eq_refl eq_refl)).
Defined.

(** ** The hook trigger *)

(** Run the goal's computation to its end, splitting on every answer of the
    environment that the script inspects. *)
Ltac crank h :=
  repeat (first
    [ progress cbn
    | progress unfold decode_utf8
    | answer h
    | match goal with
      | |- context [if (fst ?r =? 0)%Z then _ else _] =>
          let E := fresh "Erc" in destruct (fst r =? 0)%Z eqn:E
      | |- context [if is_utf8 ?b then _ else _] =>
          let E := fresh "Eutf" in destruct (is_utf8 b) eqn:E
      | |- context [if ?b then _ else _] =>
          is_var b; destruct b
      | |- context [negb ?b] =>
          is_var b; destruct b
      | |- context [if TestAwsPatterns.debug ?s then _ else _] =>
          let E := fresh "Edebug" in destruct (TestAwsPatterns.debug s) eqn:E
      | |- context [match ?r with None => _ | Some _ => _ end] =>
          is_var r; destruct r
      | |- context [match ?r with inl _ => _ | inr _ => _ end] =>
          is_var r; destruct r
      | |- context [match ?r with ReadText _ => _ | _ => _ end] =>
          is_var r; destruct r
      | |- context [match ?r with Returns _ => _ | Raises _ => _ end] =>
          is_var r; destruct r
      end ]).

(** Use a hypothesis about the members of a concrete trace. *)
Ltac member :=
  cbn; auto 20.

(** C3 fails on the code: when the failing command prints bytes that are
    not valid UTF-8, decoding them for the log message raises
    [UnicodeDecodeError] inside the [except] block, and the exception
    leaves [trigger_hook].  This happens for a failing [git add] (instead
    of the failure being swallowed) and for a rejected commit (instead of
    [False] being returned). *)
Theorem trigger_hook_raises_on_undecodable_output :
  outcome_of (run simulate
                (TestAwsPatterns.trigger_hook (TestAwsPatterns.__init__ false) "test.txt")
                latin1_world)
    = Raises UnicodeDecodeError
  /\ outcome_of (run simulate
                (TestAwsPatterns.trigger_hook (TestAwsPatterns.__init__ false) "test.txt")
                (with_shell (fun cmd => if cmd =? TestAwsPatterns.commit_cmd
                                        then (1%Z, latin1_message)
                                        else (0%Z, ascii_bytes "ok"))
                   hooked_world))
    = Raises UnicodeDecodeError.
Proof.
  split; reflexivity.
Qed.

(** X1.  What [trigger_hook] does do: as long as the output of a failing command
    is valid UTF-8, the commit is always attempted, the result is [True]
    exactly when the commit command exits zero, and a failure of [git add]
    is logged at error level without influencing the result. *)
Lemma trigger_hook_when_output_decodes :
  forall (W : Type) (h : handler W) (w w' : W) (self : TestAwsPatterns.t)
         (f : string) (o : outcome bool) (t : trace),
    run h (TestAwsPatterns.trigger_hook self f) w = (o, w', t) ->
    (forall cmd rc out, In (ObsShell cmd rc out) t -> rc <> 0%Z ->
                        is_utf8 out = true) ->
    (exists rc out,
        In (ObsShell TestAwsPatterns.commit_cmd rc out) t
        /\ o = Returns (rc =? 0)%Z)
    /\ (forall rc out,
          In (ObsShell ("git add " ++ f) rc out) t -> rc <> 0%Z ->
          logged logging_level.ERROR
            ("Could not run command 'git add " ++ f ++ "': "
               ++ string_of_list_byte out) t).
Proof.
  intros W h w w' self f o t.
  unfold TestAwsPatterns.trigger_hook, subprocess.check_output.
  crank h; intros Hrun Hutf; injection Hrun as Ho Hw Ht; subst o w' t.
  all: try (exfalso;
            match goal with
            | E : is_utf8 (snd ?r) = false, E0 : (fst ?r =? 0)%Z = false |- _ =>
                assert (is_utf8 (snd r) = true) as Hok
                  by (eapply (Hutf _ (fst r));
                      [ cbn; eauto 20 | now apply Z.eqb_neq ]);
                rewrite Hok in E; discriminate E
            end).
  all: split;
    [ match goal with
      | E : (fst ?r =? 0)%Z = _ |- context [TestAwsPatterns.commit_cmd] =>
          exists (fst r), (snd r); rewrite E; split; [ member | reflexivity ]
      end
    | intros rc out Hin Hrc ].
  all: cbn in Hin.
  all: repeat (destruct Hin as [Hin | Hin]; try discriminate Hin);
       try contradiction.
  all: try (injection Hin as <- <-).
  all: try (exfalso; apply Hrc; apply Z.eqb_eq; assumption).
  all: unfold logged; member.
Qed.

(** ** The repository fixture manager *)

(** C6 fails on the code.  [create_repo] decodes the captured output of
    [git init] as UTF-8 before it does anything else with it.  When the
    command succeeds with output that is not UTF-8, [UnicodeDecodeError]
    leaves [create_repo] before the signing stanza is appended (no file is
    written); when the command fails with such output, the exception leaves
    the [except] block instead of [False] being returned. *)
Theorem create_repo_raises_on_undecodable_output :
  (outcome_of (run simulate
                 (TestAwsPatterns.create_repo (TestAwsPatterns.__init__ false)
                    "/tmp/tmpk3v9x_2a")
                 latin1_init_world)
     = Raises UnicodeDecodeError
   /\ writes (trace_of (run simulate
                 (TestAwsPatterns.create_repo (TestAwsPatterns.__init__ false)
                    "/tmp/tmpk3v9x_2a")
                 latin1_init_world)) = [])
  /\ outcome_of (run simulate
                 (TestAwsPatterns.create_repo (TestAwsPatterns.__init__ false)
                    "/tmp/tmpk3v9x_2a")
                 latin1_world)
     = Raises UnicodeDecodeError.
Proof.
  repeat split; reflexivity.
Qed.

(** X3.  What [create_repo] does do.  The init command is always attempted, also
    after the error about an existing [.git] directory has been logged.
    As long as the captured output is valid UTF-8: a non-zero exit is
    logged with the command and the output and [False] is returned; after a
    zero exit the signing stanza is appended to [.git/config] under the
    given path. *)
Lemma create_repo_when_output_decodes :
  forall (W : Type) (h : handler W) (w w' : W) (self : TestAwsPatterns.t)
         (path : string) (o : outcome NoneOrFalse) (t : trace),
    let git_dir := pathlib.str (pathlib.Path path / ".git")%path in
    let config := pathlib.str (pathlib.Path path / ".git" / "config")%path in
    run h (TestAwsPatterns.create_repo self path) w = (o, w', t) ->
    (exists rc out, In (ObsShell ("git init " ++ path) rc out) t)
    /\ (In (ObsIsDir git_dir true) t ->
        logged logging_level.ERROR
          ("Git directory '" ++ git_dir ++ "' already exists! Exiting...") t)
    /\ ((forall cmd rc out, In (ObsShell cmd rc out) t -> is_utf8 out = true) ->
        forall rc out,
          In (ObsShell ("git init " ++ path) rc out) t ->
          (rc <> 0%Z ->
             o = Returns PyFalse
             /\ logged logging_level.ERROR
                  ("Command 'git init " ++ path ++ "' return code: "
                     ++ format_int rc) t
             /\ logged logging_level.ERROR
                  ("Command output: " ++ string_of_list_byte out) t)
          /\ (rc = 0%Z ->
              exists err,
                In (ObsWrite mode_a config
                      TestAwsPatterns.gpgsign_config_string err) t)).
Proof.
  intros W h w w' self path o t git_dir config.
  unfold TestAwsPatterns.create_repo, TestAwsPatterns.disable_gpgsign,
    subprocess.check_output, os.path.isdir, open_write, open_read.
  fold git_dir; fold config.
  crank h; intros Hrun; injection Hrun as Ho Hw Ht; subst o w' t.
  all: split; [ eexists _, _; cbn; eauto 20 | ].
  all: split;
    [ intro Hin; unfold logged; cbn in Hin |- *;
      repeat (destruct Hin as [Hin | Hin]; try discriminate Hin);
      try contradiction; auto 20
    | ].
  all: intros Hutf rc out Hin.
  all: try (exfalso;
            match goal with
            | E : is_utf8 (snd ?r) = false |- _ =>
                assert (is_utf8 (snd r) = true) as Hok
                  by (eapply (Hutf _ (fst r)); cbn; eauto 20);
                rewrite Hok in E; discriminate E
            end).
  all: cbn in Hin;
       repeat (destruct Hin as [Hin | Hin]; try discriminate Hin);
       try contradiction.
  all: injection Hin as <- <-.
  all: split; intro Hrc.
  all: try (exfalso; apply Hrc; apply Z.eqb_eq; assumption).
  all: try (exfalso; rewrite Hrc in *; discriminate).
  all: unfold logged; try (eexists; cbn; eauto 20); cbn; auto 20.
Qed.

(** ** The test scenario *)

Lemma trigger_hook_commit_exit_zero :
  forall (W : Type) (h : handler W) (w : W) (self : TestAwsPatterns.t)
         (f : string) (out : bytes),
    In (ObsShell TestAwsPatterns.commit_cmd 0 out)
       (trace_of (run h (TestAwsPatterns.trigger_hook self f) w)) ->
    outcome_of (run h (TestAwsPatterns.trigger_hook self f) w) = Returns true.
Proof.
  intros W h w self f out.
  unfold TestAwsPatterns.trigger_hook, subprocess.check_output.
  crank h; try reflexivity; intro Hin.
  all: repeat (destruct Hin as [Hin | Hin]; try discriminate Hin);
       try contradiction.
  all: injection Hin as Hrc _; rewrite Hrc in *; discriminate.
Qed.

Lemma trigger_hook_commit_exit_nonzero :
  forall (W : Type) (h : handler W) (w : W) (self : TestAwsPatterns.t)
         (f : string) (rc : Z) (out : bytes),
    In (ObsShell TestAwsPatterns.commit_cmd rc out)
       (trace_of (run h (TestAwsPatterns.trigger_hook self f) w)) ->
    rc <> 0%Z ->
    outcome_of (run h (TestAwsPatterns.trigger_hook self f) w) <> Returns true.
Proof.
  intros W h w self f rc out.
  unfold TestAwsPatterns.trigger_hook, subprocess.check_output.
  crank h; intros Hin Hrc; try discriminate.
  all: repeat (destruct Hin as [Hin | Hin]; try discriminate Hin);
       try contradiction.
  all: injection Hin as Hrc' _; exfalso; apply Hrc; rewrite <- Hrc';
       now apply Z.eqb_eq.
Qed.

Lemma tearDown_returns :
  forall (W : Type) (h : handler W) (w : W) (self : Test_01_GitPreCommitHook.t),
    outcome_of (run h (Test_01_GitPreCommitHook.tearDown self) w) = Returns tt.
Proof.
  intros W h w self.
  unfold Test_01_GitPreCommitHook.tearDown, TestAwsPatterns.remove_repo,
    shutil.rmtree.
  crank h; reflexivity.
Qed.

(** The verdict of the test method relative to the outcome of
    [trigger_hook].  The test method passes exactly when [trigger_hook]
    returns [False].  The hook is triggered once, and nothing else in the test runs a
    command.  Whenever the commit command exits zero, [trigger_hook]
    returns [True] and the test fails with [AssertionError]; whenever
    [trigger_hook] reports the commit as blocked, the assertion holds and
    the test passes, and after a commit command that exits non-zero this
    is the only outcome [trigger_hook] can report.  [tearDown] never
    raises, so it does not change the verdict. *)
Theorem test_passes_iff_trigger_outcome_false :
  forall (W : Type) (h : handler W) (w : W) (self : Test_01_GitPreCommitHook.t),
    let test := Test_01_GitPreCommitHook.test_git_pre_commit_hook self in
    let trigger :=
      TestAwsPatterns.trigger_hook (Test_01_GitPreCommitHook.g1 self)
        (Test_01_GitPreCommitHook.outfile self) in
    (exists w1 t1 t3,
      trace_of (run h test w) = (t1 ++ trace_of (run h trigger w1) ++ t3)%list
      /\ filter is_shell t1 = []
      /\ filter is_shell t3 = []
      /\ (outcome_of (run h test w) = Returns tt
          <-> outcome_of (run h trigger w1) = Returns false)
      /\ (outcome_of (run h trigger w1) = Returns true ->
          outcome_of (run h test w) = Raises (AssertionError "True is not false"))
      /\ (forall out,
            In (ObsShell TestAwsPatterns.commit_cmd 0 out) (trace_of (run h test w)) ->
            outcome_of (run h trigger w1) = Returns true
            /\ outcome_of (run h test w)
                 = Raises (AssertionError "True is not false"))
      /\ (forall rc out,
            In (ObsShell TestAwsPatterns.commit_cmd rc out) (trace_of (run h test w)) ->
            rc <> 0%Z ->
            forall blocked,
              outcome_of (run h trigger w1) = Returns blocked ->
              blocked = false /\ outcome_of (run h test w) = Returns tt))
    /\ (forall w', outcome_of (run h (Test_01_GitPreCommitHook.tearDown self) w')
                   = Returns tt).
Proof.
  intros W h w self test trigger.
  split; [ | intro w'; apply tearDown_returns ].
  unfold test, Test_01_GitPreCommitHook.test_git_pre_commit_hook.
  cbn [bind call run try_except os.getcwd os.chdir logging.debug logging.error
       except_OSError].
  answer h. answer h.
  destruct r0 as [msg | ];
    cbn [bind call run try_except os.getcwd os.chdir logging.debug logging.error
         except_OSError];
    answer h;
    rewrite run_bind; fold trigger;
    destruct (run h trigger w2) as [[o w3] t2] eqn:Et;
    destruct o as [[ | ] | e];
    cbn [Test_01_GitPreCommitHook.assertFalse bind call run try_except
         os.chdir logging.debug logging.error except_OSError];
    repeat (answer h;
            try match goal with r : option string |- _ => destruct r end;
            cbn [bind call run try_except logging.debug logging.error
                 except_OSError]).
  all: first
    [ eexists w2, [_; _; _], _; rewrite Et;
      cbn [outcome_of trace_of fst snd observe app];
      split; [ reflexivity | ]
    | eexists w2, [_; _; _], []; rewrite Et;
      cbn [outcome_of trace_of fst snd observe app]; rewrite app_nil_r;
      split; [ reflexivity | ] ].
  all: split; [ reflexivity | ].
  all: split; [ reflexivity | ].
  all: split; [ split; intro H; (reflexivity || discriminate H) | ].
  all: split; [ intro H; (reflexivity || discriminate H) | ].
  all: split; [ intros out Hin | intros rc out Hin Hrc blocked Hblocked ].
  all: match type of Hin with
       | In ?x _ =>
           assert (In x t2) as Hin2
             by (cbn in Hin;
                 repeat (destruct Hin as [Hin | Hin]; try discriminate Hin);
                 try (apply in_app_or in Hin; destruct Hin as [Hin | Hin]);
                 try assumption;
                 repeat (destruct Hin as [Hin | Hin]; try discriminate Hin);
                 contradiction)
       end.
  all: try discriminate Hblocked.
  all: try (pose proof (trigger_hook_commit_exit_nonzero W h w2
                          (Test_01_GitPreCommitHook.g1 self)
                          (Test_01_GitPreCommitHook.outfile self) rc out) as Hnot;
            fold trigger in Hnot; rewrite Et in Hnot;
            specialize (Hnot Hin2 Hrc); cbn in Hnot;
            injection Hblocked as <-;
            first [ split; reflexivity | exfalso; now apply Hnot ]).
  all: pose proof (trigger_hook_commit_exit_zero W h w2
                     (Test_01_GitPreCommitHook.g1 self)
                     (Test_01_GitPreCommitHook.outfile self) out) as Htrue;
       fold trigger in Htrue; rewrite Et in Htrue;
       specialize (Htrue Hin2); cbn in Htrue; try discriminate Htrue.
  all: split; reflexivity.
Qed.

Lemma test_passes_iff_trigger_outcome_false_witness :
  outcome_of (run simulate
                (Test_01_GitPreCommitHook.test_git_pre_commit_hook fixture)
                unhooked_world)
    = Raises (AssertionError "True is not false").
Proof.
  destruct (test_passes_iff_trigger_outcome_false world simulate
              unhooked_world fixture)
    as [[w1 [t1 [t3 [_ [_ [_ [_ [_ [Hzero _]]]]]]]]] _].
  apply (Hzero (ascii_bytes "ok")).
  cbn. auto 20.
Defined.

(** ** The payload file *)



Lemma which_git_secrets_no_writes {W : Type} (h : handler W) (w : W)
    (self : TestAwsPatterns.t) :
  writes (trace_of (run h (TestAwsPatterns.which_git_secrets self) w)) = [].
Proof.
  unfold TestAwsPatterns.which_git_secrets, shutil.which, os.access_X_OK.
  crank h; reflexivity.
Qed.

Lemma create_repo_writes {W : Type} (h : handler W) (w : W)
    (self : TestAwsPatterns.t) (path : string) :
  forall x,
    In x (writes (trace_of (run h (TestAwsPatterns.create_repo self path) w))) ->
    exists err,
      x = ObsWrite mode_a
            (pathlib.str (pathlib.Path path / ".git" / "config")%path)
            TestAwsPatterns.gpgsign_config_string err.
Proof.
  unfold TestAwsPatterns.create_repo, TestAwsPatterns.disable_gpgsign,
    subprocess.check_output, os.path.isdir, open_write, open_read.
  crank h; intros x Hin;
    repeat (destruct Hin as [Hin | Hin]); try contradiction;
    subst x; eexists; reflexivity.
Qed.



Lemma randbelow_no_writes (t : trace) :
  forallb is_randbelow t = true -> writes t = [].
Proof.
  induction t as [ | x t IH]; cbn; [ reflexivity | ].
  intro H; apply andb_prop in H; destruct H as [Hx Ht].
  destruct x; try discriminate Hx; cbn; now apply IH.
Qed.



(** * Further properties of the script *)

(** ** Commands run and exceptions that can escape *)

(** X2.  [trigger_hook] runs no command other than [git add <file>] and
    the commit, in this order, and it writes no file.  A non-zero exit of
    either command never leaves the function as [CalledProcessError]: both
    are caught. *)
Theorem trigger_hook_commands_in_order :
  forall (W : Type) (h : handler W) (w : W) (self : TestAwsPatterns.t)
         (f : string),
    let r := run h (TestAwsPatterns.trigger_hook self f) w in
    (shell_cmds (trace_of r) = ["git add " ++ f; TestAwsPatterns.commit_cmd]
     \/ shell_cmds (trace_of r) = ["git add " ++ f])
    /\ (forall rc cmd out,
          outcome_of r <> Raises (CalledProcessError rc cmd out))
    /\ writes (trace_of r) = [].
Proof.
  intros W h w self f r; subst r.
  unfold TestAwsPatterns.trigger_hook, subprocess.check_output.
  crank h.
  all: repeat split; try (intros rc cmd out He; discriminate He).
  all: first [ left; reflexivity | right; reflexivity ].
Qed.

(** With the hook in place the commit exits 1, and the result is [False]. *)
Lemma trigger_hook_when_output_decodes_witness :
  exists rc out,
    In (ObsShell TestAwsPatterns.commit_cmd rc out)
       (trace_of (run simulate
                    (TestAwsPatterns.trigger_hook (TestAwsPatterns.__init__ false)
                       "test.txt") hooked_world))
    /\ outcome_of (run simulate
                     (TestAwsPatterns.trigger_hook (TestAwsPatterns.__init__ false)
                        "test.txt") hooked_world)
       = Returns (rc =? 0)%Z.
Proof.
  refine (proj1 (trigger_hook_when_output_decodes world simulate
                   hooked_world hooked_world (TestAwsPatterns.__init__ false)
                   "test.txt" _ _ eq_refl _)).
  intros cmd rc out Hin _.
  cbn in Hin.
  repeat (destruct Hin as [Hin | Hin]; try discriminate Hin);
    try contradiction;
    injection Hin as _ _ <-; reflexivity.
Defined.

Lemma create_repo_when_output_decodes_witness :
  exists err,
    In (ObsWrite mode_a "/tmp/tmpk3v9x_2a/.git/config"
          TestAwsPatterns.gpgsign_config_string err)
       (trace_of (run simulate
                    (TestAwsPatterns.create_repo (TestAwsPatterns.__init__ false)
                       "/tmp/tmpk3v9x_2a") hooked_world)).
Proof.
  refine (proj2 (proj2 (proj2 (create_repo_when_output_decodes world simulate
                   hooked_world hooked_world (TestAwsPatterns.__init__ false)
                   "/tmp/tmpk3v9x_2a" _ _ eq_refl)) _ 0%Z (ascii_bytes "ok") _)
            eq_refl).
  - intros cmd rc out Hin.
    cbn in Hin.
    repeat (destruct Hin as [Hin | Hin]; try discriminate Hin);
      try contradiction;
      injection Hin as _ _ <-; reflexivity.
  - cbn. auto 20.
Defined.

(** X4.  [create_repo] runs exactly one command, [git init <path>].  The only
    exceptions that can leave it are [UnicodeDecodeError] and [OSError]: a
    [CalledProcessError] never escapes.  When the init command exits
    non-zero no file is written.  An [OSError] raised while the signing
    stanza is appended is not caught: it leaves [create_repo] instead of
    being turned into [False].  Outside debug mode no file is read. *)
Theorem create_repo_failure_modes :
  forall (W : Type) (h : handler W) (w : W) (self : TestAwsPatterns.t)
         (path : string),
    let r := run h (TestAwsPatterns.create_repo self path) w in
    let config := pathlib.str (pathlib.Path path / ".git" / "config")%path in
    shell_cmds (trace_of r) = ["git init " ++ path]
    /\ (forall e, outcome_of r = Raises e ->
          e = Exc UnicodeDecodeError \/ exists msg, e = Exc (OSError msg))
    /\ (forall rc out,
          In (ObsShell ("git init " ++ path) rc out) (trace_of r) ->
          rc <> 0%Z -> writes (trace_of r) = [])
    /\ (forall msg,
          In (ObsWrite mode_a config TestAwsPatterns.gpgsign_config_string
                (Some msg)) (trace_of r) ->
          outcome_of r = Raises (OSError msg))
    /\ (TestAwsPatterns.debug self = false ->
        filter is_read (trace_of r) = []).
Proof.
  intros W h w self path r config; subst r.
  unfold TestAwsPatterns.create_repo, TestAwsPatterns.disable_gpgsign,
    subprocess.check_output, os.path.isdir, open_write, open_read.
  fold config.
  crank h.
  all: split; [ reflexivity | ].
  all: split;
    [ intros e He; first
        [ discriminate He
        | injection He as <-; first [ left; reflexivity | right; eexists; reflexivity ] ]
    | ].
  all: split;
    [ intros rc out Hin Hrc; first
        [ reflexivity
        | exfalso; cbn in Hin;
          repeat (destruct Hin as [Hin | Hin]; try discriminate Hin);
          try contradiction;
          injection Hin as Hrc' _; apply Hrc; rewrite <- Hrc';
          now apply Z.eqb_eq ]
    | ].
  all: split;
    [ intros msg Hin; cbn in Hin;
      repeat (destruct Hin as [Hin | Hin]; try discriminate Hin);
      try contradiction;
      injection Hin as <-; reflexivity
    | ].
  all: intro Hdebug; first [ reflexivity | rewrite Hdebug in *; discriminate ].
Qed.

Lemma create_repo_failure_modes_witness :
  outcome_of (run simulate
                (TestAwsPatterns.create_repo (TestAwsPatterns.__init__ false)
                   "/tmp/tmpk3v9x_2a")
                (with_write_error (Some "Permission denied") hooked_world))
    = Raises (OSError "Permission denied").
Proof.
  refine (proj1 (proj2 (proj2 (proj2 (create_repo_failure_modes world simulate
            (with_write_error (Some "Permission denied") hooked_world)
            (TestAwsPatterns.__init__ false) "/tmp/tmpk3v9x_2a"))))
            "Permission denied" _).
  cbn. auto 20.
Defined.

(** ** The scanner invocation *)

(** X5.  [scan_git_secrets] runs exactly one command, [git-secrets --scan
    <path>], and writes no file; a non-zero exit of the scanner never
    leaves it as [CalledProcessError], it is caught.  As long as the captured output is valid UTF-8 it returns [None] when
    the scanner exits zero and [False] when it exits non-zero, the latter
    logged at informational level with the return code. *)
Theorem scan_git_secrets_outcome :
  forall (W : Type) (h : handler W) (w : W) (self : TestAwsPatterns.t)
         (path : string),
    let r := run h (TestAwsPatterns.scan_git_secrets self path) w in
    let cmd := "git-secrets --scan " ++ path in
    shell_cmds (trace_of r) = [cmd]
    /\ writes (trace_of r) = []
    /\ (forall rc c out, outcome_of r <> Raises (CalledProcessError rc c out))
    /\ ((forall c rc out, In (ObsShell c rc out) (trace_of r) ->
                          is_utf8 out = true) ->
        exists rc out,
          In (ObsShell cmd rc out) (trace_of r)
          /\ outcome_of r = Returns (if (rc =? 0)%Z then PyNone else PyFalse)
          /\ (rc <> 0%Z ->
              logged logging_level.INFO
                ("Command '" ++ cmd ++ "' return code: " ++ format_int rc)
                (trace_of r)
              /\ logged logging_level.INFO
                   ("Command output: " ++ ForegroundColor.GREEN
                      ++ string_of_list_byte out ++ ForegroundColor.RESET)
                   (trace_of r))).
Proof.
  intros W h w self path r cmd; subst r cmd.
  unfold TestAwsPatterns.scan_git_secrets, subprocess.check_output.
  crank h.
  all: split; [ reflexivity | ].
  all: split; [ reflexivity | ].
  all: split; [ intros rc c out He; discriminate He | ].
  all: intro Hutf.
  all: try (exfalso;
            match goal with
            | E : is_utf8 (snd ?r) = false |- _ =>
                assert (is_utf8 (snd r) = true) as Hok
                  by (eapply (Hutf _ (fst r)); cbn; eauto 20);
                rewrite Hok in E; discriminate E
            end).
  all: match goal with
       | E : (fst ?r =? 0)%Z = _ |- _ =>
           exists (fst r), (snd r); rewrite E
       end.
  all: split; [ cbn; auto 20 | ].
  all: split; [ reflexivity | ].
  all: intro Hrc.
  all: try (exfalso; apply Hrc; now apply Z.eqb_eq).
  all: unfold logged; split; cbn; auto 20.
Qed.

Lemma scan_git_secrets_outcome_witness :
  exists rc out,
    In (ObsShell "git-secrets --scan /tmp/tmpk3v9x_2a" rc out)
       (trace_of (run simulate
                    (TestAwsPatterns.scan_git_secrets (TestAwsPatterns.__init__ false)
                       "/tmp/tmpk3v9x_2a") failing_world))
    /\ outcome_of (run simulate
                     (TestAwsPatterns.scan_git_secrets (TestAwsPatterns.__init__ false)
                        "/tmp/tmpk3v9x_2a") failing_world)
       = Returns (if (rc =? 0)%Z then PyNone else PyFalse).
Proof.
  destruct (proj2 (proj2 (proj2 (scan_git_secrets_outcome world simulate
              failing_world (TestAwsPatterns.__init__ false) "/tmp/tmpk3v9x_2a"))))
    as [rc [out [Hin [Hout _]]]].
  - intros c rc out Hin. cbn in Hin.
    repeat (destruct Hin as [Hin | Hin]; try discriminate Hin);
      try contradiction;
      injection Hin as _ _ <-; reflexivity.
  - exists rc, out; split; assumption.
Defined.

(** ** Teardown *)

(** X6.  [tearDown] always returns.  It asks for the fixture directory to be
    removed exactly once, runs no command and writes no file, and it logs
    the manual-cleanup error exactly when the removal raised. *)
Theorem tearDown_removes_once :
  forall (W : Type) (h : handler W) (w : W) (self : Test_01_GitPreCommitHook.t),
  exists err w' t,
    run h (Test_01_GitPreCommitHook.tearDown self) w = (Returns tt, w', t)
    /\ filter is_rmtree t
       = [ObsRmTree (Test_01_GitPreCommitHook.repo_path self) err]
    /\ shell_cmds t = []
    /\ writes t = []
    /\ (logged logging_level.ERROR
          (manual_cleanup_message (Test_01_GitPreCommitHook.repo_path self)) t
        <-> err <> None).
Proof.
  intros W h w self.
  unfold Test_01_GitPreCommitHook.tearDown, TestAwsPatterns.remove_repo,
    shutil.rmtree, manual_cleanup_message.
  cbn [bind call try_except run].
  destruct (h _ (RmTree (Test_01_GitPreCommitHook.repo_path self)) w)
    as [[e | ] w1] eqn:E; crank h.
  - exists (Some e); eexists _, _; split; [ reflexivity | ].
    repeat split; try discriminate.
    intros _. unfold logged. cbn. auto 20.
  - exists None; eexists _, _; split; [ reflexivity | ].
    repeat split.
    + intros Hin _. unfold logged in Hin. cbn in Hin.
      repeat (destruct Hin as [Hin | Hin]; try discriminate Hin); contradiction.
    + intro Hne; contradiction.
Qed.

Lemma tearDown_removes_once_witness :
  exists (err : option Exception) w' t,
    run simulate (Test_01_GitPreCommitHook.tearDown fixture)
        (with_rmtree_error (Some (OSError "Permission denied")) hooked_world)
      = (Returns tt, w', t)
    /\ err <> None
    /\ logged logging_level.ERROR (manual_cleanup_message "/tmp/tmpk3v9x_2a") t.
Proof.
  destruct (tearDown_removes_once world simulate
              (with_rmtree_error (Some (OSError "Permission denied")) hooked_world)
              fixture)
    as [err [w' [t [Hrun [Hrm [_ [_ Hlog]]]]]]].
  exists err, w', t; split; [ exact Hrun | ].
  assert (err <> None) as Hne.
  { injection Hrun as _ <-. cbn in Hrm. injection Hrm as <-. discriminate. }
  split; [ exact Hne | exact (proj2 Hlog Hne) ].
Defined.

(** ** Setup without a repository *)

Lemma create_repo_False_no_writes {W : Type} (h : handler W) (w : W)
    (self : TestAwsPatterns.t) (path : string) :
  outcome_of (run h (TestAwsPatterns.create_repo self path) w) = Returns PyFalse ->
  writes (trace_of (run h (TestAwsPatterns.create_repo self path) w)) = []
  /\ exists rc out,
       rc <> 0%Z
       /\ In (ObsShell ("git init " ++ path) rc out)
            (trace_of (run h (TestAwsPatterns.create_repo self path) w)).
Proof.
  unfold TestAwsPatterns.create_repo, TestAwsPatterns.disable_gpgsign,
    subprocess.check_output, os.path.isdir, open_write, open_read.
  crank h; intro Ho; try discriminate Ho.
  all: split; [ reflexivity | ].
  all: match goal with
       | E : (fst ?r =? 0)%Z = false |- _ =>
           exists (fst r), (snd r); split;
           [ now apply Z.eqb_neq | cbn; auto 20 ]
       end.
Qed.

Lemma which_git_secrets_no_draws {W : Type} (h : handler W) (w : W)
    (self : TestAwsPatterns.t) :
  filter is_randbelow
    (trace_of (run h (TestAwsPatterns.which_git_secrets self) w)) = [].
Proof.
  unfold TestAwsPatterns.which_git_secrets, shutil.which, os.access_X_OK.
  crank h; reflexivity.
Qed.

Lemma create_repo_no_draws {W : Type} (h : handler W) (w : W)
    (self : TestAwsPatterns.t) (path : string) :
  filter is_randbelow
    (trace_of (run h (TestAwsPatterns.create_repo self path) w)) = [].
Proof.
  unfold TestAwsPatterns.create_repo, TestAwsPatterns.disable_gpgsign,
    subprocess.check_output, os.path.isdir, open_write, open_read.
  crank h; reflexivity.
Qed.

(** X7.  When [create_repo] returns the failure indicator [False] (the init
    command exited non-zero), [setUp] stops there and still returns
    normally: it draws no secret and writes no file at all, so the test
    method then runs in a directory that holds neither a repository nor a
    payload. *)
Theorem setUp_without_repository :
  forall (W : Type) (h : handler W) (w w1 w2 : W)
         (self : Test_01_GitPreCommitHook.t) (t1 t2 : trace),
    run h (TestAwsPatterns.which_git_secrets (Test_01_GitPreCommitHook.g1 self)) w
      = (Returns tt, w1, t1) ->
    run h (TestAwsPatterns.create_repo (Test_01_GitPreCommitHook.g1 self)
             (Test_01_GitPreCommitHook.repo_path self)) w1
      = (Returns PyFalse, w2, t2) ->
    run h (Test_01_GitPreCommitHook.setUp self) w
      = (Returns tt, w2, (t1 ++ t2)%list)
    /\ writes (t1 ++ t2)%list = []
    /\ filter is_randbelow (t1 ++ t2)%list = []
    /\ exists rc out,
         rc <> 0%Z
         /\ In (ObsShell ("git init " ++ Test_01_GitPreCommitHook.repo_path self)
                  rc out) t2.
Proof.
  intros W h w w1 w2 self t1 t2 Hwhich Hcreate.
  unfold Test_01_GitPreCommitHook.setUp.
  rewrite run_bind, Hwhich, run_bind, Hcreate.
  cbn [is_not_False run]. rewrite app_nil_r.
  split; [ reflexivity | ].
  pose proof (which_git_secrets_no_writes h w (Test_01_GitPreCommitHook.g1 self))
    as Hw1.
  rewrite Hwhich in Hw1; cbn [trace_of snd] in Hw1.
  destruct (create_repo_False_no_writes h w1 (Test_01_GitPreCommitHook.g1 self)
              (Test_01_GitPreCommitHook.repo_path self)) as [Hw2 Hrc].
  { now rewrite Hcreate. }
  rewrite Hcreate in Hw2, Hrc; cbn [trace_of snd] in Hw2, Hrc.
  split; [ unfold writes in *; now rewrite filter_app, Hw1, Hw2 | ].
  split; [ | exact Hrc ].
  rewrite filter_app.
  pose proof (which_git_secrets_no_draws h w (Test_01_GitPreCommitHook.g1 self))
    as Hd1.
  rewrite Hwhich in Hd1; cbn [trace_of snd] in Hd1.
  pose proof (create_repo_no_draws h w1 (Test_01_GitPreCommitHook.g1 self)
                (Test_01_GitPreCommitHook.repo_path self)) as Hd2.
  rewrite Hcreate in Hd2; cbn [trace_of snd] in Hd2.
  now rewrite Hd1, Hd2.
Qed.

Lemma setUp_without_repository_witness :
  outcome_of (run simulate (Test_01_GitPreCommitHook.setUp fixture) failing_world)
    = Returns tt
  /\ writes (trace_of (run simulate (Test_01_GitPreCommitHook.setUp fixture)
                         failing_world)) = [].
Proof.
  destruct (setUp_without_repository world simulate
              failing_world failing_world failing_world fixture _ _
              eq_refl eq_refl) as [Hrun [Hw _]].
  rewrite Hrun. split; [ reflexivity | exact Hw ].
Defined.

(** ** The working directory during the test *)



(** ** The entry point *)

(** [crank], also splitting on the interpreter version and the debug flag. *)
Ltac crank_main h :=
  crank h;
  repeat (match goal with
          | |- context [version_ge ?v ?m] =>
              let E := fresh "Eversion" in
              destruct (version_ge v m) eqn:E
          | |- context [if argparse.debug ?o then _ else _] =>
              let E := fresh "Edebug" in
              destruct (argparse.debug o) eqn:E
          end; crank h).

(** X12.  On an interpreter older than 3.4 the script prints the version error
    and exits with status 1 before it parses the command line, configures
    logging or runs any test. *)
Theorem main_rejects_old_interpreter :
  forall (W : Type) (h : handler W) (w : W) (v : nat * nat),
    fst (h _ VersionInfo w) = v ->
    version_ge v (3, 4)%nat = false ->
    outcome_of (run h main w) = Raises (SystemExit 1)
    /\ trace_of (run h main w)
       = [ObsVersionInfo v;
          ObsPrint "ERROR: Required minimum Python version is 3.4! Exiting..."].
Proof.
  intros W h w v Hv Hold.
  unfold main, sys.version_info, print.
  cbn [bind call run].
  destruct (h _ VersionInfo w) as [v' w1]; cbn in Hv; subst v'.
  rewrite Hold. crank h. split; reflexivity.
Qed.

Lemma main_rejects_old_interpreter_witness :
  outcome_of (run simulate main (with_python_version (3, 3)%nat hooked_world))
    = Raises (SystemExit 1).
Proof.
  exact (proj1 (main_rejects_old_interpreter world simulate
                  (with_python_version (3, 3)%nat hooked_world) (3, 3)%nat
                  eq_refl eq_refl)).
Defined.

(** X13.  Once the command line has been parsed, the debug flag decides the rest
    of the run.  With the flag: the argument list is cut down to the
    program name, logging is configured at debug level with the default
    format, and the tests run with the class attribute [DEBUG] set.
    Without it: logging is configured at informational level with the
    bare-message format and [DEBUG] stays unset.  In both cases the exit
    status is 0 when the tests succeeded and 1 otherwise. *)
Theorem main_debug_flag :
  forall (W : Type) (h : handler W) (w : W) (options : argparse.Namespace),
    In (ObsParseArgs (inl options)) (trace_of (run h script w)) ->
    exists v ok,
      trace_of (run h script w)
      = ([ObsVersionInfo v; ObsParseArgs (inl options)]
         ++ (if argparse.debug options
             then [ObsTruncateArgv;
                   ObsBasicConfig logging_level.DEBUG None]
             else [ObsBasicConfig logging_level.INFO (Some "%(message)s")])
         ++ [ObsUnittestMain (argparse.debug options) ok])%list
      /\ outcome_of (run h script w)
         = Raises (SystemExit (if ok then 0 else 1)).
Proof.
  intros W h w options.
  unfold script, main, sys.version_info, parse_args, ArgumentParser_parse_args,
    unittest_main, print.
  crank_main h.
  all: intro Hin;
    repeat (destruct Hin as [Hin | Hin]; try discriminate Hin);
    try contradiction.
  all: injection Hin as <-.
  all: try (exfalso; congruence).
  all: eexists _, _; split; reflexivity.
Qed.

Lemma main_debug_flag_witness :
  outcome_of (run simulate script
                (with_command_line (inl {| argparse.debug := true |}) hooked_world))
    = Raises (SystemExit 0).
Proof.
  destruct (main_debug_flag world simulate
              (with_command_line (inl {| argparse.debug := true |}) hooked_world)
              {| argparse.debug := true |}) as [v [ok [Ht Ho]]].
  - cbn. auto 20.
  - rewrite Ho. cbn in Ht. injection Ht as _ <-. reflexivity.
Defined.

(** ** The random draws behind a generated credential *)

Lemma join_random_choice_draws {W : Type} (h : handler W) (chars : string) :
  String.length chars <> 0 ->
  forall (n : nat) (w : W),
  exists draws s w',
    run h (join_random_choice chars n) w
      = (Returns s, w', map (ObsRandBelow (String.length chars)) draws)
    /\ List.length draws = n
    /\ Forall2 (fun d c => String.get (d mod String.length chars) chars = Some c)
         draws (list_ascii_of_string s).
Proof.
  intros Hne n; induction n as [ | n IH]; intro w.
  - exists [], EmptyString, w; cbn; repeat split; constructor.
  - cbn [join_random_choice]. unfold random.choice.
    destruct (Nat.eqb_spec (String.length chars) 0) as [H0 | _]; [ contradiction | ].
    cbn [bind call run].
    answer h.
    destruct (get_in_range chars (r mod String.length chars)) as [c [Hc _]].
    { apply Nat.mod_upper_bound; exact Hne. }
    rewrite Hc. cbn [bind].
    destruct (IH w0) as [draws [s [w' [Hrest [Hlen Hall]]]]].
    rewrite run_bind, Hrest. cbn [run observe app].
    exists (r :: draws), (String c s), w'.
    rewrite app_nil_r. split; [ reflexivity | ].
    split; [ cbn; now rewrite Hlen | ].
    cbn. constructor; assumption.
Qed.

(** X14.  Generating a credential consists of random draws and nothing else
    (no command, no file, no log entry): 40 draws below 65 for a secret
    key, 16 draws below 36 for an access key.  The draws determine the
    result: character [i] of the secret key, and of the part of the access
    key after [AKIA], is the alphabet symbol at the position given by draw
    [i]. *)
Theorem credentials_follow_the_draws :
  forall (W : Type) (h : handler W) (w : W) (self : TestAwsPatterns.t),
    (exists draws key w',
        run h (TestAwsPatterns.generate_random_aws_secret_key self) w
          = (Returns key, w', map (ObsRandBelow 65) draws)
        /\ List.length draws = 40
        /\ Forall2 (fun d c =>
                      String.get (d mod 65) TestAwsPatterns.secret_key_chars
                        = Some c)
             draws (list_ascii_of_string key))
    /\ (exists draws tail w',
          run h (TestAwsPatterns.generate_random_aws_access_key self) w
            = (Returns ("AKIA" ++ tail), w', map (ObsRandBelow 36) draws)
          /\ List.length draws = 16
          /\ Forall2 (fun d c =>
                        String.get (d mod 36) TestAwsPatterns.access_key_chars
                          = Some c)
               draws (list_ascii_of_string tail)).
Proof.
  intros W h w self; split.
  - unfold TestAwsPatterns.generate_random_aws_secret_key.
    destruct (join_random_choice_draws h TestAwsPatterns.secret_key_chars
                ltac:(discriminate) 40 w) as [draws [s [w' [Hrun [Hlen Hall]]]]].
    exists draws, s, w'.
    rewrite run_bind, Hrun; cbn [run]; rewrite app_nil_r.
    repeat split; assumption.
  - unfold TestAwsPatterns.generate_random_aws_access_key.
    destruct (join_random_choice_draws h TestAwsPatterns.access_key_chars
                ltac:(discriminate) 16 w) as [draws [s [w' [Hrun [Hlen Hall]]]]].
    exists draws, s, w'.
    rewrite run_bind, Hrun; cbn [run]; rewrite app_nil_r.
    repeat split; assumption.
Qed.

Lemma index_of_spec (c : ascii) (chars : string) :
  In c (list_ascii_of_string chars) ->
  index_of c chars < String.length chars
  /\ String.get (index_of c chars) chars = Some c.
Proof.
  induction chars as [ | a rest IH]; cbn; [ intros [] | ].
  intro Hin.
  destruct (Ascii.eqb_spec a c) as [-> | Hne].
  - split; [ lia | reflexivity ].
  - destruct Hin as [Heq | Hin]; [ contradiction | ].
    destruct (IH Hin) as [Hlt Hget]. split; [ lia | exact Hget ].
Qed.

Lemma join_random_choice_reaches (chars : string) (w : world) :
  forall (s : string) (rest : list nat),
    (forall c, In c (list_ascii_of_string s) ->
               In c (list_ascii_of_string chars)) ->
    run simulate (join_random_choice chars (String.length s))
        (with_dice (map (fun c => index_of c chars) (list_ascii_of_string s)
                      ++ rest) w)
    = (Returns s, with_dice rest w,
       map (fun c => ObsRandBelow (String.length chars) (index_of c chars))
         (list_ascii_of_string s)).
Proof.
  induction s as [ | c s IH]; intros rest Hall.
  - reflexivity.
  - destruct (index_of_spec c chars) as [Hlt Hget].
    { apply Hall; now left. }
    cbn [String.length join_random_choice list_ascii_of_string map app].
    unfold random.choice.
    destruct (Nat.eqb_spec (String.length chars) 0) as [H0 | _]; [ lia | ].
    cbn [bind call run simulate with_dice dice hd].
    rewrite (Nat.mod_small _ _ Hlt), Hget.
    cbn [bind].
    change (roll (with_dice (index_of c chars
                               :: map (fun c0 => index_of c0 chars)
                                    (list_ascii_of_string s) ++ rest) w))
      with (with_dice (map (fun c0 => index_of c0 chars)
                         (list_ascii_of_string s) ++ rest) w).
    rewrite run_bind, IH; [ | intros c' Hc'; apply Hall; now right ].
    cbn [run observe]. now rewrite app_nil_r.
Qed.

Lemma secret_key_char_in_alphabet (c : ascii) :
  secret_key_char c = true ->
  In c (list_ascii_of_string TestAwsPatterns.secret_key_chars).
Proof.
  intro H.
  assert (existsb (Ascii.eqb c)
            (list_ascii_of_string TestAwsPatterns.secret_key_chars) = true) as Hex.
  { revert H. destruct c as [[] [] [] [] [] [] [] []]; cbn; intro H;
      first [ reflexivity | discriminate H ]. }
  apply existsb_exists in Hex. destruct Hex as [x [Hin Heq]].
  apply Ascii.eqb_eq in Heq. now subst x.
Qed.

Lemma access_key_char_in_alphabet (c : ascii) :
  access_key_char c = true ->
  In c (list_ascii_of_string TestAwsPatterns.access_key_chars).
Proof.
  intro H.
  assert (existsb (Ascii.eqb c)
            (list_ascii_of_string TestAwsPatterns.access_key_chars) = true) as Hex.
  { revert H. destruct c as [[] [] [] [] [] [] [] []]; cbn; intro H;
      first [ reflexivity | discriminate H ]. }
  apply existsb_exists in Hex. destruct Hex as [x [Hin Heq]].
  apply Ascii.eqb_eq in Heq. now subst x.
Qed.

(** X15.  Nothing of the credential shapes is left out by the generators: every
    40-character string over the secret-key alphabet is returned by
    [generate_random_aws_secret_key] for some sequence of draws, and so is
    [AKIA] followed by any 16 uppercase letters or digits by
    [generate_random_aws_access_key]. *)
Theorem every_shaped_credential_is_generated :
  forall (self : TestAwsPatterns.t),
    (forall key,
        String.length key = 40 ->
        (forall c, In c (list_ascii_of_string key) -> secret_key_char c = true) ->
        exists w,
          outcome_of (run simulate
                        (TestAwsPatterns.generate_random_aws_secret_key self) w)
            = Returns key)
    /\ (forall tail,
          String.length tail = 16 ->
          (forall c, In c (list_ascii_of_string tail) -> access_key_char c = true) ->
          exists w,
            outcome_of (run simulate
                          (TestAwsPatterns.generate_random_aws_access_key self) w)
              = Returns ("AKIA" ++ tail)).
Proof.
  intro self; split.
  - intros key Hlen Hall.
    exists (with_dice
              (map (fun c => index_of c TestAwsPatterns.secret_key_chars)
                 (list_ascii_of_string key) ++ []) hooked_world).
    unfold TestAwsPatterns.generate_random_aws_secret_key.
    rewrite run_bind, <- Hlen, join_random_choice_reaches; [ reflexivity | ].
    intros c Hc; apply secret_key_char_in_alphabet; now apply Hall.
  - intros tail Hlen Hall.
    exists (with_dice
              (map (fun c => index_of c TestAwsPatterns.access_key_chars)
                 (list_ascii_of_string tail) ++ []) hooked_world).
    unfold TestAwsPatterns.generate_random_aws_access_key.
    rewrite run_bind, <- Hlen, join_random_choice_reaches; [ reflexivity | ].
    intros c Hc; apply access_key_char_in_alphabet; now apply Hall.
Qed.

Lemma every_shaped_credential_is_generated_witness :
  exists w,
    outcome_of (run simulate
                  (TestAwsPatterns.generate_random_aws_secret_key
                     (TestAwsPatterns.__init__ false)) w)
      = Returns "wJalrXUtnFEMI/K7MDENG/bPxRfiCYEXAMPLEKEY".
Proof.
  apply (proj1 (every_shaped_credential_is_generated
                  (TestAwsPatterns.__init__ false))).
  - reflexivity.
  - intros c Hc.
    apply (chars_all secret_key_char "wJalrXUtnFEMI/K7MDENG/bPxRfiCYEXAMPLEKEY");
      [ reflexivity | exact Hc ].
Defined.

(** ** What can go wrong in setup and in the test *)

Lemma which_git_secrets_raises {W : Type} (h : handler W) (w : W)
    (self : TestAwsPatterns.t) (e : BaseException) :
  outcome_of (run h (TestAwsPatterns.which_git_secrets self) w) = Raises e ->
  e = SystemExit 1.
Proof.
  unfold TestAwsPatterns.which_git_secrets, shutil.which, os.access_X_OK.
  crank h; intro He; first [ discriminate He | now injection He as <- ].
Qed.

Lemma create_repo_raises {W : Type} (h : handler W) (w : W)
    (self : TestAwsPatterns.t) (path : string) (e : BaseException) :
  outcome_of (run h (TestAwsPatterns.create_repo self path) w) = Raises e ->
  e = Exc UnicodeDecodeError \/ exists msg, e = Exc (OSError msg).
Proof.
  unfold TestAwsPatterns.create_repo, TestAwsPatterns.disable_gpgsign,
    subprocess.check_output, os.path.isdir, open_write, open_read.
  crank h; intro He; first
    [ discriminate He
    | injection He as <-;
      first [ left; reflexivity | right; eexists; reflexivity ] ].
Qed.



(** X8.  [setUp] can be left by three exceptions only: [SystemExit(1)] from the
    scanner check, [UnicodeDecodeError] from decoding the output of
    [git init], and [OSError] from writing the signing stanza or the
    payload.  In particular a failure to write the payload file is not
    caught: it leaves [setUp] as [OSError]. *)
Theorem setUp_exceptions :
  forall (W : Type) (h : handler W) (w : W) (self : Test_01_GitPreCommitHook.t),
    let r := run h (Test_01_GitPreCommitHook.setUp self) w in
    (forall e, outcome_of r = Raises e ->
       e = SystemExit 1
       \/ e = Exc UnicodeDecodeError
       \/ exists msg, e = Exc (OSError msg))
    /\ (forall path data msg,
          In (ObsWrite mode_w path data (Some msg)) (trace_of r) ->
          outcome_of r = Raises (OSError msg)).
Proof.
  intros W h w self r; subst r.
  unfold Test_01_GitPreCommitHook.setUp.
  rewrite run_bind.
  pose proof (which_git_secrets_raises h w (Test_01_GitPreCommitHook.g1 self))
    as Hwr.
  pose proof (which_git_secrets_no_writes h w (Test_01_GitPreCommitHook.g1 self))
    as Hww.
  destruct (run h (TestAwsPatterns.which_git_secrets
                     (Test_01_GitPreCommitHook.g1 self)) w)
    as [[[[] | e1] w1] t1]; cbn [outcome_of trace_of fst snd] in *.
  2: { split.
       - intros e He; injection He as <-. left; now apply Hwr.
       - intros path data msg Hin. exfalso.
         assert (In (ObsWrite mode_w path data (Some msg)) (writes t1)) as Hin'
           by (apply filter_In; split; [ exact Hin | reflexivity ]).
         rewrite Hww in Hin'; contradiction. }
  rewrite run_bind.
  pose proof (create_repo_raises h w1 (Test_01_GitPreCommitHook.g1 self)
                (Test_01_GitPreCommitHook.repo_path self)) as Hcr.
  pose proof (create_repo_writes h w1 (Test_01_GitPreCommitHook.g1 self)
                (Test_01_GitPreCommitHook.repo_path self)) as Hcw.
  destruct (run h (TestAwsPatterns.create_repo (Test_01_GitPreCommitHook.g1 self)
                     (Test_01_GitPreCommitHook.repo_path self)) w1)
    as [[[created | e2] w2] t2]; cbn [outcome_of trace_of fst snd] in *.
  2: { split.
       - intros e He; injection He as <-. right; now apply Hcr.
       - intros path data msg Hin. exfalso.
         apply in_app_or in Hin; destruct Hin as [Hin | Hin].
         + assert (In (ObsWrite mode_w path data (Some msg)) (writes t1)) as Hin'
             by (apply filter_In; split; [ exact Hin | reflexivity ]).
           rewrite Hww in Hin'; contradiction.
         + assert (In (ObsWrite mode_w path data (Some msg)) (writes t2)) as Hin'
             by (apply filter_In; split; [ exact Hin | reflexivity ]).
           destruct (Hcw _ Hin') as [err Herr]; discriminate Herr. }
  assert (forall path data msg,
             ~ In (ObsWrite mode_w path data (Some msg)) (t1 ++ t2)%list) as Hpre.
  { intros path data msg Hin.
    apply in_app_or in Hin; destruct Hin as [Hin | Hin].
    - assert (In (ObsWrite mode_w path data (Some msg)) (writes t1)) as Hin'
        by (apply filter_In; split; [ exact Hin | reflexivity ]).
      rewrite Hww in Hin'; contradiction.
    - assert (In (ObsWrite mode_w path data (Some msg)) (writes t2)) as Hin'
        by (apply filter_In; split; [ exact Hin | reflexivity ]).
      destruct (Hcw _ Hin') as [err Herr]; discriminate Herr. }
  destruct created; cbn [is_not_False].
  - destruct (secret_key_spec h w2 (Test_01_GitPreCommitHook.g1 self))
      as [secret [w3 [t3 [Hkey [_ [_ Hrand]]]]]].
    rewrite run_bind, Hkey. unfold open_write. cbn [bind call run].
    answer h. destruct r as [msg' | ]; cbn [bind run observe outcome_of trace_of fst snd].
    + split.
      * intros e He; injection He as <-. right; right; eexists; reflexivity.
      * intros path data msg Hin.
        rewrite app_assoc in Hin.
        apply in_app_or in Hin; destruct Hin as [Hin | Hin];
          [ exfalso; exact (Hpre _ _ _ Hin) | ].
        apply in_app_or in Hin; destruct Hin as [Hin | Hin].
        -- exfalso.
           assert (In (ObsWrite mode_w path data (Some msg)) (writes t3)) as Hin'
             by (apply filter_In; split; [ exact Hin | reflexivity ]).
           rewrite (randbelow_no_writes t3 Hrand) in Hin'; contradiction.
        -- destruct Hin as [Hin | []]. injection Hin as _ _ <-. reflexivity.
    + split; [ intros e He; discriminate He | ].
      intros path data msg Hin. exfalso.
      rewrite app_assoc in Hin.
      apply in_app_or in Hin; destruct Hin as [Hin | Hin];
        [ exact (Hpre _ _ _ Hin) | ].
      apply in_app_or in Hin; destruct Hin as [Hin | Hin].
      * assert (In (ObsWrite mode_w path data (Some msg)) (writes t3)) as Hin'
          by (apply filter_In; split; [ exact Hin | reflexivity ]).
        rewrite (randbelow_no_writes t3 Hrand) in Hin'; contradiction.
      * destruct Hin as [Hin | []]. discriminate Hin.
  - cbn [run outcome_of trace_of fst snd].
    split; [ intros e He; discriminate He | ].
    intros path data msg Hin. exfalso.
    rewrite app_nil_r in Hin. exact (Hpre _ _ _ Hin).
Qed.

Lemma setUp_exceptions_witness :
  Exc (OSError "Permission denied") = SystemExit 1
  \/ Exc (OSError "Permission denied") = Exc UnicodeDecodeError
  \/ exists msg, Exc (OSError "Permission denied") = Exc (OSError msg).
Proof.
  exact (proj1 (setUp_exceptions world simulate
                  (with_write_error (Some "Permission denied") hooked_world)
                  fixture)
           (OSError "Permission denied") eq_refl).
Defined.

(** ** The scenario on a rejected commit *)

(** C1 fails on the code.  The commit is blocked (the commit command exits
    1), but what it printed is not valid UTF-8: [trigger_hook] raises
    [UnicodeDecodeError] while it formats the log message, the assertion
    is never evaluated, and the test method ends in that exception instead
    of passing. *)
Theorem test_errors_on_undecodable_blocked_commit :
  shell_cmds (trace_of (run simulate
                          (Test_01_GitPreCommitHook.test_git_pre_commit_hook fixture)
                          undecodable_commit_world))
    = ["git add test.txt"; TestAwsPatterns.commit_cmd]
  /\ In (ObsShell TestAwsPatterns.commit_cmd 1 latin1_message)
        (trace_of (run simulate
                     (Test_01_GitPreCommitHook.test_git_pre_commit_hook fixture)
                     undecodable_commit_world))
  /\ outcome_of (run simulate
                   (Test_01_GitPreCommitHook.test_git_pre_commit_hook fixture)
                   undecodable_commit_world)
     = Raises UnicodeDecodeError.
Proof.
  repeat split; cbn; auto 20.
Qed.


